(** * Task Complaint API (task-api/main.py): a shallow embedding

    The service is a FastAPI application over one SQLModel table, [tasks].
    Every route of main.py is embedded as a function from the committed
    contents of the table to an outcome and the new contents.

    Conventions.
    - A JSON request body is a finite map from keys to JSON values
      ([gmap string json]); keys that no schema declares are ignored, as
      the SQLModel schemas do.
    - A [Task.t] is the Python object: every attribute may hold [None],
      because a table model does not validate attribute assignment.  The
      database is stricter: the columns declared with a non-Optional
      annotation are NOT NULL, and a commit that would store NULL in one
      of them raises IntegrityError.
    - The table is the list of its rows in storage order.  The engine is
      SQLite, the one tests/conftest.py configures: a fresh id is one more
      than the largest id in the table, a negative LIMIT means no limit
      and a negative OFFSET means no offset.
    - The integers of a request (task_id, skip, limit) are Python ints,
      unbounded; the driver binds signed 64-bit integers only and raises
      OverflowError for any other, which the application leaves
      unhandled (status 500).
    - A session lives for one request (get_session): a request that ends
      in an exception leaves the table as it found it. *)

From stdpp Require Import gmap strings list pretty.

Local Open Scope string_scope.
Local Open Scope Z_scope.

(** ** JSON values of a request body

    Arrays and objects are left out: every field of the schemas is a
    string field, which rejects them as it rejects numbers and booleans. *)

Inductive json : Type :=
| JNull
| JBool (b : bool)
| JNumber (n : Z)
| JString (s : string).

(** ** Data model, main.py lines 24-51 *)

(** class Task(SQLModel, table=True) *)
Module Task.
Record t : Type := mk {
  id : option Z;
  complain_no : option string;
  complain_remarks : option string;
  complain_status : option string;
  created_by : option string
}.
End Task.

(** class TaskCreate(SQLModel) *)
Module TaskCreate.
Record t : Type := mk {
  complain_no : string;
  complain_remarks : option string;
  complain_status : string;
  created_by : string
}.
End TaskCreate.

(** class TaskUpdate(SQLModel): four Optional[str] fields with default
    None, and the set of fields the request supplied
    (pydantic's model_fields_set). *)
Module TaskUpdate.
Record t : Type := mk {
  complain_no : option string;
  complain_remarks : option string;
  complain_status : option string;
  created_by : option string;
  model_fields_set : list string
}.
End TaskUpdate.

#[global] Instance json_eq_dec : EqDecision json.
Proof. solve_decision. Defined.

#[global] Instance Task_eq_dec : EqDecision Task.t.
Proof. solve_decision. Defined.

(** ** Outcomes of a request *)

Inductive outcome (A : Type) : Type :=
| Response (status_code : Z) (body : A)
| RequestValidationError (fields : list string)
| HTTPException (status_code : Z) (detail : string)
| Raised (exception : string).

Arguments Response {A} status_code body.
Arguments RequestValidationError {A} fields.
Arguments HTTPException {A} status_code detail.
Arguments Raised {A} exception.

(** The status line the client sees: FastAPI answers a request validation
    error with 422 and an unhandled exception with 500. *)
Definition status_code_of {A : Type} (o : outcome A) : Z :=
  match o with
  | Response c _ => c
  | RequestValidationError _ => 422
  | HTTPException c _ => c
  | Raised _ => 500
  end.

(** ** Validation of request bodies (pydantic) *)

(** A field annotated [str] with no default. *)
Definition required_str (body : gmap string json) (key : string)
  : option string :=
  match body !! key with
  | Some (JString s) => Some s
  | _ => None
  end.

(** A field annotated [str] with a default. *)
Definition defaulted_str (body : gmap string json) (key default : string)
  : option string :=
  match body !! key with
  | None => Some default
  | Some (JString s) => Some s
  | Some _ => None
  end.

(** A field annotated [Optional[str]] with default None. *)
Definition optional_str (body : gmap string json) (key : string)
  : option (option string) :=
  match body !! key with
  | None | Some JNull => Some None
  | Some (JString s) => Some (Some s)
  | Some _ => None
  end.

(** The fields a validation error lists: those whose check failed. *)
Definition passed {A : Type} (check : option A) : bool :=
  match check with Some _ => true | None => false end.

Definition offending (checks : list (string * bool)) : list string :=
  (filter (λ c, c.2 = false) checks).*1.

Definition validate_TaskCreate (body : gmap string json)
  : list string + TaskCreate.t :=
  match required_str body "complain_no",
        optional_str body "complain_remarks",
        defaulted_str body "complain_status" "pending",
        required_str body "created_by" with
  | Some no, Some remarks, Some status, Some by_ =>
      inr (TaskCreate.mk no remarks status by_)
  | no, remarks, status, by_ =>
      inl (offending [("complain_no", passed no);
                      ("complain_remarks", passed remarks);
                      ("complain_status", passed status);
                      ("created_by", passed by_)])
  end.

Definition TaskUpdate_fields : list string :=
  ["complain_no"; "complain_remarks"; "complain_status"; "created_by"].

Definition validate_TaskUpdate (body : gmap string json)
  : list string + TaskUpdate.t :=
  match optional_str body "complain_no",
        optional_str body "complain_remarks",
        optional_str body "complain_status",
        optional_str body "created_by" with
  | Some no, Some remarks, Some status, Some by_ =>
      inr (TaskUpdate.mk no remarks status by_
             (filter (λ key, is_Some (body !! key)) TaskUpdate_fields))
  | no, remarks, status, by_ =>
      inl (offending [("complain_no", passed no);
                      ("complain_remarks", passed remarks);
                      ("complain_status", passed status);
                      ("created_by", passed by_)])
  end.

(** ** The table [tasks] and the session *)

(** The integers the database driver can bind as a parameter of a
    statement: the signed 64-bit integers.  Binding any other Python int
    raises OverflowError. *)
Definition int64 (n : Z) : Prop :=
  -9223372036854775808 ≤ n ≤ 9223372036854775807.

#[global] Instance int64_dec (n : Z) : Decision (int64 n).
Proof. unfold int64. apply _. Defined.

(** SELECT ... WHERE id = ?, for an id that is bound: the row with that
    primary key. *)
Definition row_with_id (rows : list Task.t) (task_id : Z) : option Task.t :=
  List.find (λ row, bool_decide (Task.id row = Some task_id)) rows.

(** session.get(Task, task_id): the row with that primary key, None when
    there is none, and OverflowError when the id cannot be bound.  The ids
    of rows are assigned by the database and lie in the signed 64-bit
    range, so an id outside the range is the id of no row of it; here,
    where a table is any list of rows, the id is looked up first and the
    exception is raised when no row carries it. *)
Definition session_get (rows : list Task.t) (task_id : Z)
  : string + option Task.t :=
  match row_with_id rows task_id with
  | Some task => inr (Some task)
  | None => if decide (int64 task_id) then inr None else inl "OverflowError"
  end.

(** The NOT NULL columns of class Task: complain_no, complain_status and
    created_by are annotated [str]; complain_remarks is [Optional[str]]. *)
Definition not_null (task : Task.t) : bool :=
  passed (Task.complain_no task) && passed (Task.complain_status task)
  && passed (Task.created_by task).

Definition max_id (rows : list Task.t) : option Z :=
  foldr (λ row m, match Task.id row, m with
                  | Some i, Some j => Some (Z.max i j)
                  | Some i, None => Some i
                  | None, _ => m
                  end) None rows.

(** The id of the next inserted row: 1 in an empty table, otherwise one
    more than the largest id in use. *)
Definition next_id (rows : list Task.t) : Z :=
  match max_id rows with
  | Some m => m + 1
  | None => 1
  end.

(** session.add(db_task); session.commit() for a new object (id None):
    INSERT.  The object receives its id. *)
Definition commit_new (db_task : Task.t) (rows : list Task.t)
  : option (Task.t * list Task.t) :=
  if not_null db_task then
    let row := Task.mk (Some (next_id rows)) (Task.complain_no db_task)
                 (Task.complain_remarks db_task) (Task.complain_status db_task)
                 (Task.created_by db_task) in
    Some (row, (rows ++ [row])%list)
  else None.

(** session.add(task); session.commit() for a loaded object: UPDATE of
    the row with the object's primary key. *)
Definition commit_dirty (task : Task.t) (rows : list Task.t)
  : option (list Task.t) :=
  if not_null task then
    Some ((λ row, if bool_decide (Task.id row = Task.id task)
                  then task else row) <$> rows)
  else None.

(** session.delete(task); session.commit(): DELETE of the row with the
    object's primary key. *)
Definition commit_deleted (task : Task.t) (rows : list Task.t)
  : list Task.t :=
  filter (λ row, Task.id row ≠ Task.id task) rows.

(** session.refresh(task): reload the object from its row, under the id
    the database gave it. *)
Definition refresh (task : Task.t) (rows : list Task.t) : option Task.t :=
  task_id ← Task.id task; row_with_id rows task_id.

(** ** Queries: select(Task), .where, .offset, .limit, session.exec *)

Record Select : Type := mkSelect {
  whereclause : list (Task.t → bool);
  offset_clause : option Z;
  limit_clause : option Z
}.

Definition select_Task : Select := mkSelect [] None None.

Definition where_ (criterion : Task.t → bool) (statement : Select) : Select :=
  mkSelect (whereclause statement ++ [criterion])%list
           (offset_clause statement) (limit_clause statement).

Definition offset (n : Z) (statement : Select) : Select :=
  mkSelect (whereclause statement) (Some n) (limit_clause statement).

Definition limit (n : Z) (statement : Select) : Select :=
  mkSelect (whereclause statement) (offset_clause statement) (Some n).

(** [column == value]: a NULL column matches no value. *)
Definition col_eq (column : Task.t → option string) (value : string)
  : Task.t → bool :=
  λ row, bool_decide (column row = Some value).

Definition apply_offset (clause : option Z) (rows : list Task.t)
  : list Task.t :=
  match clause with
  | Some n => drop (Z.to_nat n) rows
  | None => rows
  end.

Definition apply_limit (clause : option Z) (rows : list Task.t)
  : list Task.t :=
  match clause with
  | Some n => if bool_decide (n < 0) then rows else take (Z.to_nat n) rows
  | None => rows
  end.

(** The rows a statement selects, its OFFSET and LIMIT being bound. *)
Definition exec (statement : Select) (rows : list Task.t) : list Task.t :=
  let matching :=
    filter (λ row, forallb (λ criterion, criterion row)
                     (whereclause statement) = true) rows in
  apply_limit (limit_clause statement)
    (apply_offset (offset_clause statement) matching).

(** An OFFSET or LIMIT clause can be bound when it is absent or holds a
    signed 64-bit integer. *)
Definition bindable (clause : option Z) : Prop :=
  match clause with
  | Some n => int64 n
  | None => True
  end.

#[global] Instance bindable_dec (clause : option Z)
  : Decision (bindable clause).
Proof. destruct clause; simpl; apply _. Defined.

(** session.exec(statement).all(): the selected rows, or OverflowError
    when the offset or the limit cannot be bound. *)
Definition session_exec (statement : Select) (rows : list Task.t)
  : string + list Task.t :=
  if decide (bindable (offset_clause statement)
             ∧ bindable (limit_clause statement))
  then inr (exec statement rows)
  else inl "OverflowError".

(** ** The routes, main.py lines 66-134 *)

(** Task.model_validate(task): a Task object with no id yet. *)
Definition Task_model_validate (task : TaskCreate.t) : Task.t :=
  Task.mk None (Some (TaskCreate.complain_no task))
    (TaskCreate.complain_remarks task)
    (Some (TaskCreate.complain_status task))
    (Some (TaskCreate.created_by task)).

(** POST /tasks *)
Definition create_task (body : gmap string json) (rows : list Task.t)
  : outcome Task.t * list Task.t :=
  match validate_TaskCreate body with
  | inl fields => (RequestValidationError fields, rows)
  | inr task =>
      let db_task := Task_model_validate task in
      match commit_new db_task rows with
      | None => (Raised "IntegrityError", rows)
      | Some (db_task, rows') =>
          match refresh db_task rows' with
          | None => (Raised "InvalidRequestError", rows')
          | Some db_task => (Response 201 db_task, rows')
          end
      end
  end.

(** [if value:] None and the empty string are both falsy. *)
Definition if_truthy (value : option string)
    (then_ : string → Select → Select) (statement : Select) : Select :=
  match value with
  | Some v => if bool_decide (v = "") then statement else then_ v statement
  | None => statement
  end.

(** GET /tasks; [skip] and [limit] are declared [int], with defaults 0
    and 100 that the caller of this function supplies. *)
Definition list_tasks (status created_by : option string) (skip limit_ : Z)
    (rows : list Task.t) : outcome (list Task.t) :=
  let statement := select_Task in
  let statement :=
    if_truthy status (λ v, where_ (col_eq Task.complain_status v)) statement in
  let statement :=
    if_truthy created_by (λ v, where_ (col_eq Task.created_by v)) statement in
  let statement := limit limit_ (offset skip statement) in
  match session_exec statement rows with
  | inl exception => Raised exception
  | inr tasks => Response 200 tasks
  end.

(** HTTPException(status_code=404,
                  detail=f"Task with ID {task_id} not found") *)
Definition not_found {A : Type} (task_id : Z) : outcome A :=
  HTTPException 404 ("Task with ID " +:+ pretty task_id +:+ " not found").

(** GET /tasks/{task_id} *)
Definition get_task (task_id : Z) (rows : list Task.t) : outcome Task.t :=
  match session_get rows task_id with
  | inl exception => Raised exception
  | inr None => not_found task_id
  | inr (Some task) => Response 200 task
  end.

(** task_update.model_dump(exclude_unset=True): the supplied fields, in
    declaration order. *)
Definition model_dump_exclude_unset (task_update : TaskUpdate.t)
  : list (string * option string) :=
  filter (λ item, item.1 ∈ TaskUpdate.model_fields_set task_update)
    [("complain_no", TaskUpdate.complain_no task_update);
     ("complain_remarks", TaskUpdate.complain_remarks task_update);
     ("complain_status", TaskUpdate.complain_status task_update);
     ("created_by", TaskUpdate.created_by task_update)].

(** setattr(task, key, value) for the keys a dump can hold; the id is
    never among them. *)
Definition setattr (task : Task.t) (key : string) (value : option string)
  : Task.t :=
  let '(Task.mk i no remarks status by_) := task in
  if decide (key = "complain_no") then Task.mk i value remarks status by_
  else if decide (key = "complain_remarks") then Task.mk i no value status by_
  else if decide (key = "complain_status") then Task.mk i no remarks value by_
  else if decide (key = "created_by") then Task.mk i no remarks status value
  else task.

Definition getattr (task : Task.t) (key : string) : option string :=
  if decide (key = "complain_no") then Task.complain_no task
  else if decide (key = "complain_remarks") then Task.complain_remarks task
  else if decide (key = "complain_status") then Task.complain_status task
  else if decide (key = "created_by") then Task.created_by task
  else None.

(** Lines 115-117: the loop over the dump, on the object in memory. *)
Definition apply_task_data (task : Task.t)
    (task_data : list (string * option string)) : Task.t :=
  foldl (λ task item, setattr task item.1 item.2) task task_data.

(** PUT /tasks/{task_id} *)
Definition update_task (task_id : Z) (body : gmap string json)
    (rows : list Task.t) : outcome Task.t * list Task.t :=
  match validate_TaskUpdate body with
  | inl fields => (RequestValidationError fields, rows)
  | inr task_update =>
      match session_get rows task_id with
      | inl exception => (Raised exception, rows)
      | inr None => (not_found task_id, rows)
      | inr (Some task) =>
          let task_data := model_dump_exclude_unset task_update in
          let task := apply_task_data task task_data in
          match commit_dirty task rows with
          | None => (Raised "IntegrityError", rows)
          | Some rows' =>
              match refresh task rows' with
              | None => (Raised "InvalidRequestError", rows')
              | Some task => (Response 200 task, rows')
              end
          end
      end
  end.

(** The body of a successful DELETE. *)
Module Deleted.
Record t : Type := mk { message : string; id : Z }.
End Deleted.

(** DELETE /tasks/{task_id} *)
Definition delete_task (task_id : Z) (rows : list Task.t)
  : outcome Deleted.t * list Task.t :=
  match session_get rows task_id with
  | inl exception => (Raised exception, rows)
  | inr None => (not_found task_id, rows)
  | inr (Some task) =>
      let rows' := commit_deleted task rows in
      (Response 200 (Deleted.mk "Task deleted successfully" task_id), rows')
  end.

(** The statement lines 86-93 build, used to state the lemmas on
    listing. *)
Definition list_statement (status created_by : option string)
    (skip limit_ : Z) : Select :=
  limit limit_
    (offset skip
       (if_truthy created_by (λ v, where_ (col_eq Task.created_by v))
          (if_truthy status (λ v, where_ (col_eq Task.complain_status v))
             select_Task))).

(** The tables the routes can produce: every row has an id and meets the
    NOT NULL columns, and no two rows share an id. *)
Definition table_ok (rows : list Task.t) : Prop :=
  Forall (λ row, is_Some (Task.id row) ∧ not_null row = true) rows
  ∧ NoDup (Task.id <$> rows).

(** What lines 115-117 leave in an attribute that held [old], read off
    a validated body: a supplied string, None for a supplied null, and
    [old] when the key is absent.  Used to state the lemmas on updates. *)
Definition supplied (body : gmap string json) (key : string)
    (old : option string) : option string :=
  match body !! key with
  | Some (JString s) => Some s
  | Some _ => None
  | None => old
  end.

(** ** Response schema, main.py lines 46-51 *)

(** class TaskResponse(SQLModel) *)
Module TaskResponse.
Record t : Type := mk {
  id : Z;
  complain_no : string;
  complain_remarks : option string;
  complain_status : string;
  created_by : string
}.
End TaskResponse.

(** response_model=TaskResponse: the object a route returns is validated
    against the response schema, whose id, complain_no, complain_status
    and created_by cannot hold None. *)
Definition validate_TaskResponse (task : Task.t) : option TaskResponse.t :=
  match Task.id task, Task.complain_no task, Task.complain_status task,
        Task.created_by task with
  | Some i, Some no, Some status, Some by_ =>
      Some (TaskResponse.mk i no (Task.complain_remarks task) status by_)
  | _, _, _, _ => None
  end.

(** The JSON object the client receives for a task. *)
Definition TaskResponse_json (task : TaskResponse.t) : gmap string json :=
  {[ "id" := JNumber (TaskResponse.id task);
     "complain_no" := JString (TaskResponse.complain_no task);
     "complain_remarks" :=
       match TaskResponse.complain_remarks task with
       | Some remarks => JString remarks
       | None => JNull
       end;
     "complain_status" := JString (TaskResponse.complain_status task);
     "created_by" := JString (TaskResponse.created_by task) ]}.

(** A returned object that fails the response schema is an unhandled
    ResponseValidationError. *)
Definition response_model {A B : Type} (validate : A → option B)
    (o : outcome A) : outcome B :=
  match o with
  | Response status_code body =>
      match validate body with
      | Some body => Response status_code body
      | None => Raised "ResponseValidationError"
      end
  | RequestValidationError fields => RequestValidationError fields
  | HTTPException status_code detail => HTTPException status_code detail
  | Raised exception => Raised exception
  end.

(** ** Health checks, main.py lines 136-151 *)

(** GET / *)
Definition health_check : outcome (list (string * string)) :=
  Response 200
    [("status", "healthy");
     ("message", "Task Complaint API is running with SQLModel")].

(** GET /health/db: the query is tried; [attempt] is what session.exec
    gave, rows or the exception it raised. *)
Definition database_health_check (attempt : string + list Task.t)
  : outcome (list (string * string)) :=
  match attempt with
  | inr _ => Response 200 [("status", "healthy"); ("database", "connected")]
  | inl e => HTTPException 503 ("Database connection failed: " +:+ e)
  end.

(** ** The application: its routes and their dispatch *)

Inductive request : Type :=
| POST_tasks (body : gmap string json)
| GET_tasks (status created_by : option string) (skip limit_ : option Z)
| GET_task (task_id : Z)
| PUT_task (task_id : Z) (body : gmap string json)
| DELETE_task (task_id : Z)
| GET_root
| GET_health_db.

Inductive reply : Type :=
| TaskReply (o : outcome TaskResponse.t)
| TasksReply (o : outcome (list TaskResponse.t))
| DeletedReply (o : outcome Deleted.t)
| HealthReply (o : outcome (list (string * string))).

Definition reply_status (r : reply) : Z :=
  match r with
  | TaskReply o => status_code_of o
  | TasksReply o => status_code_of o
  | DeletedReply o => status_code_of o
  | HealthReply o => status_code_of o
  end.

(** One request against the table, as the FastAPI [app] serves it (the
    name [app] is the list append here): the route is run (query parameters
    left out take the defaults of the signature, skip 0 and limit 100) and
    its result passes through the response model. *)
Definition dispatch (req : request) (rows : list Task.t)
  : reply * list Task.t :=
  match req with
  | POST_tasks body =>
      let '(o, rows') := create_task body rows in
      (TaskReply (response_model validate_TaskResponse o), rows')
  | GET_tasks status created_by skip limit_ =>
      (TasksReply
         (response_model (mapM validate_TaskResponse)
            (list_tasks status created_by (default 0 skip)
               (default 100 limit_) rows)), rows)
  | GET_task task_id =>
      (TaskReply (response_model validate_TaskResponse (get_task task_id rows)),
       rows)
  | PUT_task task_id body =>
      let '(o, rows') := update_task task_id body rows in
      (TaskReply (response_model validate_TaskResponse o), rows')
  | DELETE_task task_id =>
      let '(o, rows') := delete_task task_id rows in
      (DeletedReply o, rows')
  | GET_root => (HealthReply health_check, rows)
  | GET_health_db =>
      (HealthReply
         (database_health_check (session_exec (limit 1 select_Task) rows)),
       rows)
  end.

(** The integers a request carries: its task_id, or its skip and limit
    (the defaults when left out). *)
Definition request_integers (req : request) : list Z :=
  match req with
  | GET_tasks _ _ skip limit_ => [default 0 skip; default 100 limit_]
  | GET_task task_id | PUT_task task_id _ | DELETE_task task_id => [task_id]
  | POST_tasks _ | GET_root | GET_health_db => []
  end.

(** A sequence of requests, served one after the other. *)
Definition run (requests : list request) (rows : list Task.t)
  : list Task.t :=
  foldl (λ rows req, (dispatch req rows).2) rows requests.

(** Every id of the table is at least 1. *)
Definition ids_positive (rows : list Task.t) : Prop :=
  Forall (λ row, ∃ i, Task.id row = Some i ∧ 1 ≤ i) rows.

(** The columns that are NOT NULL among the fields of an update. *)
Definition required_fields : list string :=
  ["complain_no"; "complain_status"; "created_by"].

(** A filter of GET /tasks lets a value through when it is absent, empty
    or equal to the value. *)
Definition lets_through (filter_ : option string) (value : string) : Prop :=
  filter_ = None ∨ filter_ = Some "" ∨ filter_ = Some value.

(** ** Sample data *)

Definition sample_task : Task.t :=
  Task.mk (Some 1) (Some "TEST001") (Some "Test complaint") (Some "pending")
    (Some "test_user").

Definition minimal_data : gmap string json :=
  {[ "complain_no" := JString "MIN001"; "created_by" := JString "test_user" ]}.

Definition clear_remarks : gmap string json :=
  {[ "complain_remarks" := JNull ]}.

Definition empty_data : gmap string json :=
  {[ "complain_no" := JString ""; "complain_remarks" := JString "";
     "created_by" := JString "" ]}.

Definition resolved_data : gmap string json :=
  {[ "complain_no" := JString "STAT002";
     "complain_status" := JString "resolved";
     "created_by" := JString "user1" ]}.

Definition task_bob : Task.t :=
  Task.mk (Some 1) (Some "COMBO003") None (Some "pending") (Some "bob").

Definition task_alice : Task.t :=
  Task.mk (Some 2) (Some "COMBO001") None (Some "pending") (Some "alice").

(** A table of 1001 rows. *)
Definition many_tasks : list Task.t :=
  (λ n, Task.mk (Some (Z.of_nat n)) (Some "BULK") None (Some "pending")
          (Some "test_user")) <$> seq 1 1001.

(** * Properties *)

(** ** The session *)

Section session.
Implicit Types (rows : list Task.t) (task row : Task.t) (task_id : Z).

Lemma row_with_id_Some rows task_id task :
  row_with_id rows task_id = Some task →
  Task.id task = Some task_id ∧ task ∈ rows.
Proof.
  unfold row_with_id. intros Hfind.
  apply find_some in Hfind as [Hin Hid].
  apply bool_decide_eq_true in Hid.
  split; [done | by apply list_elem_of_In].
Qed.

Lemma row_with_id_None rows task_id :
  row_with_id rows task_id = None ↔
  ∀ row, row ∈ rows → Task.id row ≠ Some task_id.
Proof.
  unfold row_with_id. split.
  - intros Hfind row Hin Hid.
    apply list_elem_of_In in Hin.
    pose proof (find_none _ _ Hfind row Hin) as Hrow. simpl in Hrow.
    by apply bool_decide_eq_false in Hrow.
  - intros Hall. induction rows as [|row rows IH]; [done|]. simpl.
    rewrite bool_decide_eq_false_2; [|apply Hall; left].
    apply IH. intros row' Hin. apply Hall. by right.
Qed.

Lemma row_with_id_app_new rows row task_id :
  row_with_id rows task_id = None → Task.id row = Some task_id →
  row_with_id (rows ++ [row]) task_id = Some row.
Proof.
  unfold row_with_id. intros Hnone Hid.
  induction rows as [|row' rows IH]; simpl in *.
  - by rewrite bool_decide_eq_true_2.
  - destruct (bool_decide (Task.id row' = Some task_id)); [done | by apply IH].
Qed.

Lemma max_id_bound rows row i :
  row ∈ rows → Task.id row = Some i → ∃ m, max_id rows = Some m ∧ i ≤ m.
Proof.
  induction rows as [|row' rows IH]; [by intros ?%elem_of_nil|].
  intros [->|Hin]%elem_of_cons Hid; simpl.
  - rewrite Hid. destruct (max_id rows) as [j|]; eexists; split; [done|lia|done|lia].
  - destruct (IH Hin Hid) as (m & -> & Hle).
    destruct (Task.id row') as [j|]; eexists; split; [done|lia|done|lia].
Qed.

(** No row of the table carries the id the next insert will use. *)
Lemma next_id_fresh rows : row_with_id rows (next_id rows) = None.
Proof.
  apply row_with_id_None. intros row Hin Hid.
  destruct (max_id_bound _ _ _ Hin Hid) as (m & Hmax & Hle).
  unfold next_id in Hle. rewrite Hmax in Hle. lia.
Qed.

Lemma row_with_id_commit_dirty rows rows' task_id old task :
  row_with_id rows task_id = Some old → Task.id task = Some task_id →
  commit_dirty task rows = Some rows' →
  row_with_id rows' task_id = Some task.
Proof.
  unfold commit_dirty, row_with_id. intros Hold Hid Hcommit.
  destruct (not_null task); [|done]. injection Hcommit as <-.
  rewrite Hid.
  induction rows as [|row rows IH]; [done|]. simpl in *.
  destruct (bool_decide (Task.id row = Some task_id)) eqn:Hrow; simpl.
  - by rewrite bool_decide_eq_true_2.
  - rewrite Hrow. by apply IH.
Qed.

Lemma session_get_stored rows task_id task :
  row_with_id rows task_id = Some task →
  session_get rows task_id = inr (Some task).
Proof. unfold session_get. by intros ->. Qed.

Lemma session_get_absent rows task_id :
  row_with_id rows task_id = None → int64 task_id →
  session_get rows task_id = inr None.
Proof. unfold session_get. intros -> Hrange. by rewrite decide_True. Qed.

Lemma session_get_overflow rows task_id :
  row_with_id rows task_id = None → ¬ int64 task_id →
  session_get rows task_id = inl "OverflowError".
Proof. unfold session_get. intros -> Hrange. by rewrite decide_False. Qed.

(** The lookup of an id depends on the table through the row of the id
    only. *)
Lemma session_get_same rows rows' task_id :
  row_with_id rows' task_id = row_with_id rows task_id →
  session_get rows' task_id = session_get rows task_id.
Proof. unfold session_get. by intros ->. Qed.

End session.

(** ** Create *)

Section create.
Implicit Types (rows : list Task.t) (body : gmap string json).

(** A validated payload is inserted, reloaded and returned. *)
Lemma create_task_validated body task rows :
  validate_TaskCreate body = inr task →
  let db_task :=
    Task.mk (Some (next_id rows)) (Some (TaskCreate.complain_no task))
      (TaskCreate.complain_remarks task)
      (Some (TaskCreate.complain_status task))
      (Some (TaskCreate.created_by task)) in
  create_task body rows = (Response 201 db_task, rows ++ [db_task])%list.
Proof.
  intros Hvalid db_task. unfold create_task. rewrite Hvalid.
  unfold commit_new, Task_model_validate, refresh. simpl.
  fold db_task.
  by rewrite (row_with_id_app_new rows db_task (next_id rows)
                (next_id_fresh rows) eq_refl).
Qed.

Lemma validate_TaskCreate_inr body task :
  validate_TaskCreate body = inr task ↔
  required_str body "complain_no" = Some (TaskCreate.complain_no task) ∧
  optional_str body "complain_remarks"
    = Some (TaskCreate.complain_remarks task) ∧
  defaulted_str body "complain_status" "pending"
    = Some (TaskCreate.complain_status task) ∧
  required_str body "created_by" = Some (TaskCreate.created_by task).
Proof.
  unfold validate_TaskCreate. destruct task as [no remarks status by_]. simpl.
  destruct (required_str body "complain_no"),
    (optional_str body "complain_remarks"),
    (defaulted_str body "complain_status" "pending"),
    (required_str body "created_by"); intuition congruence.
Qed.
Lemma elem_of_offending key checks :
  (key, false) ∈ checks → key ∈ offending checks.
Proof.
  intros Hin. unfold offending. apply list_elem_of_fmap.
  exists (key, false). split; [done|]. by apply list_elem_of_filter.
Qed.

Lemma validate_TaskCreate_inl body :
  required_str body "complain_no" = None
  ∨ required_str body "created_by" = None →
  validate_TaskCreate body
  = inl (offending
           [("complain_no", passed (required_str body "complain_no"));
            ("complain_remarks",
             passed (optional_str body "complain_remarks"));
            ("complain_status",
             passed (defaulted_str body "complain_status" "pending"));
            ("created_by", passed (required_str body "created_by"))]).
Proof.
  unfold validate_TaskCreate.
  destruct (required_str body "complain_no"),
    (optional_str body "complain_remarks"),
    (defaulted_str body "complain_status" "pending"),
    (required_str body "created_by"); intuition congruence.
Qed.

(** A rejected payload leaves the table alone. *)
Lemma create_task_rejected body fields rows :
  validate_TaskCreate body = inl fields →
  create_task body rows = (RequestValidationError fields, rows).
Proof. intros Hinvalid. unfold create_task. by rewrite Hinvalid. Qed.
End create.

(** C5, as the route behaves.  A valid create payload is answered with
    201 and the new record:
    the record is appended to the table under an id that no record of the
    table had, it can be fetched under that id, it carries the validated
    fields, and its complain_status is "pending" when the payload has no
    such key. *)
Theorem create_task_persists (body : gmap string json) (task : TaskCreate.t)
    (rows : list Task.t) :
  validate_TaskCreate body = inr task →
  ∃ db_task task_id,
    create_task body rows = (Response 201 db_task, (rows ++ [db_task])%list) ∧
    Task.id db_task = Some task_id ∧
    Forall (λ row, Task.id row ≠ Some task_id) rows ∧
    get_task task_id (rows ++ [db_task]) = Response 200 db_task ∧
    Task.complain_no db_task = Some (TaskCreate.complain_no task) ∧
    Task.complain_remarks db_task = TaskCreate.complain_remarks task ∧
    Task.complain_status db_task = Some (TaskCreate.complain_status task) ∧
    Task.created_by db_task = Some (TaskCreate.created_by task) ∧
    (body !! "complain_status" = None →
     Task.complain_status db_task = Some "pending").
Proof.
  intros Hvalid. pose proof (create_task_validated body task rows Hvalid) as Hrun.
  simpl in Hrun. eexists _, (next_id rows). split; [exact Hrun|]. simpl.
  pose proof (next_id_fresh rows) as Hfresh.
  repeat split.
  - apply Forall_forall. by apply row_with_id_None.
  - unfold get_task, session_get. by rewrite (row_with_id_app_new rows _ (next_id rows)).
  - intros Habsent. apply validate_TaskCreate_inr in Hvalid as (_ & _ & Hstatus & _).
    unfold defaulted_str in Hstatus. rewrite Habsent in Hstatus. congruence.
Qed.

Lemma create_task_persists_witness :
  ∃ db_task task_id,
    create_task minimal_data [sample_task]
    = (Response 201 db_task, [sample_task; db_task]) ∧
    Task.id db_task = Some task_id ∧
    Forall (λ row, Task.id row ≠ Some task_id) [sample_task] ∧
    get_task task_id [sample_task; db_task] = Response 200 db_task ∧
    Task.complain_no db_task = Some "MIN001" ∧
    Task.complain_remarks db_task = None ∧
    Task.complain_status db_task = Some "pending" ∧
    Task.created_by db_task = Some "test_user" ∧
    (minimal_data !! "complain_status" = None →
     Task.complain_status db_task = Some "pending").
Proof.
  apply (create_task_persists minimal_data
           (TaskCreate.mk "MIN001" None "pending" "test_user") [sample_task]).
  vm_compute. reflexivity.
Defined.

(** C5, as the claim reads, fails: the id of a record that was deleted is
    assigned again.  The first create on an empty table returns id 1; once
    that record is deleted, the next create returns id 1 as well, for a
    different record. *)
Lemma create_task_reuses_id_counterexample :
  create_task minimal_data []
  = (Response 201
       (Task.mk (Some 1) (Some "MIN001") None (Some "pending")
          (Some "test_user")),
     [Task.mk (Some 1) (Some "MIN001") None (Some "pending")
        (Some "test_user")]) ∧
  delete_task 1 (create_task minimal_data []).2
  = (Response 200 (Deleted.mk "Task deleted successfully" 1), []) ∧
  create_task resolved_data (delete_task 1 (create_task minimal_data []).2).2
  = (Response 201
       (Task.mk (Some 1) (Some "STAT002") None (Some "resolved")
          (Some "user1")),
     [Task.mk (Some 1) (Some "STAT002") None (Some "resolved")
        (Some "user1")]).
Proof. vm_compute. repeat split. Qed.

(** C7. A create payload without complain_no or without created_by is
    answered with a validation error, status 422, that lists the missing
    field, and the table is unchanged. *)
Theorem create_task_missing_required (body : gmap string json)
    (rows : list Task.t) :
  body !! "complain_no" = None ∨ body !! "created_by" = None →
  ∃ fields,
    create_task body rows = (RequestValidationError fields, rows) ∧
    status_code_of (create_task body rows).1 = 422 ∧
    (body !! "complain_no" = None → "complain_no" ∈ fields) ∧
    (body !! "created_by" = None → "created_by" ∈ fields).
Proof.
  intros Hmissing.
  assert (required_str body "complain_no" = None
          ∨ required_str body "created_by" = None) as Hfail.
  { unfold required_str. destruct Hmissing as [-> | ->]; auto. }
  pose proof (create_task_rejected body _ rows
                (validate_TaskCreate_inl body Hfail)) as Hrun.
  eexists. split; [exact Hrun|]. rewrite Hrun. split; [done|].
  split; intros Habsent; apply elem_of_offending;
    unfold required_str; rewrite Habsent; simpl; repeat constructor.
Qed.

Lemma create_task_missing_required_witness :
  ∃ fields,
    create_task {[ "complain_no" := JString "TEST002" ]} [sample_task]
    = (RequestValidationError fields, [sample_task]) ∧
    status_code_of
      (create_task {[ "complain_no" := JString "TEST002" ]} [sample_task]).1
    = 422 ∧
    (({[ "complain_no" := JString "TEST002" ]} : gmap string json)
       !! "complain_no" = None → "complain_no" ∈ fields) ∧
    (({[ "complain_no" := JString "TEST002" ]} : gmap string json)
       !! "created_by" = None → "created_by" ∈ fields).
Proof.
  apply (create_task_missing_required
           {[ "complain_no" := JString "TEST002" ]} [sample_task]).
  right. vm_compute. reflexivity.
Defined.

(** C9. A create payload whose complain_no and created_by are the empty
    string (its two other fields being absent or valid) is answered with
    201, and the stored record holds the two empty strings. *)
Theorem create_task_empty_strings (body : gmap string json)
    (rows : list Task.t) (remarks : option string) (status : string) :
  body !! "complain_no" = Some (JString "") →
  body !! "created_by" = Some (JString "") →
  optional_str body "complain_remarks" = Some remarks →
  defaulted_str body "complain_status" "pending" = Some status →
  ∃ db_task,
    create_task body rows = (Response 201 db_task, (rows ++ [db_task])%list) ∧
    status_code_of (create_task body rows).1 = 201 ∧
    Task.complain_no db_task = Some "" ∧
    Task.created_by db_task = Some "" ∧
    db_task ∈ (create_task body rows).2.
Proof.
  intros Hno Hby Hremarks Hstatus.
  assert (validate_TaskCreate body = inr (TaskCreate.mk "" remarks status ""))
    as Hvalid.
  { apply validate_TaskCreate_inr. unfold required_str.
    by rewrite Hno, Hby. }
  pose proof (create_task_validated body _ rows Hvalid) as Hrun.
  simpl in Hrun. eexists. split; [exact Hrun|]. rewrite Hrun. simpl.
  repeat split. apply elem_of_app. right. by apply list_elem_of_singleton.
Qed.

Lemma create_task_empty_strings_witness :
  ∃ db_task,
    create_task empty_data [] = (Response 201 db_task, [db_task]) ∧
    status_code_of (create_task empty_data []).1 = 201 ∧
    Task.complain_no db_task = Some "" ∧
    Task.created_by db_task = Some "" ∧
    db_task ∈ (create_task empty_data []).2.
Proof.
  apply (create_task_empty_strings empty_data [] (Some "") "pending");
    vm_compute; reflexivity.
Defined.

(** C10. When a create payload supplies complain_status as a string (and
    is otherwise valid), the stored and returned record carries exactly
    that string; "pending" is not applied. *)
Theorem create_task_explicit_status (body : gmap string json)
    (rows : list Task.t) (status no by_ : string) (remarks : option string) :
  body !! "complain_status" = Some (JString status) →
  required_str body "complain_no" = Some no →
  optional_str body "complain_remarks" = Some remarks →
  required_str body "created_by" = Some by_ →
  ∃ db_task task_id,
    create_task body rows = (Response 201 db_task, (rows ++ [db_task])%list) ∧
    get_task task_id (create_task body rows).2 = Response 200 db_task ∧
    Task.complain_status db_task = Some status.
Proof.
  intros Hstatus Hno Hremarks Hby.
  assert (validate_TaskCreate body = inr (TaskCreate.mk no remarks status by_))
    as Hvalid.
  { apply validate_TaskCreate_inr. unfold defaulted_str.
    by rewrite Hstatus. }
  destruct (create_task_persists body _ rows Hvalid)
    as (db_task & task_id & Hrun & _ & _ & Hget & _ & _ & Hst & _).
  exists db_task, task_id. rewrite Hrun. by simpl.
Qed.

Lemma create_task_explicit_status_witness :
  ∃ db_task task_id,
    create_task resolved_data [sample_task]
    = (Response 201 db_task, [sample_task; db_task]) ∧
    get_task task_id (create_task resolved_data [sample_task]).2
    = Response 200 db_task ∧
    Task.complain_status db_task = Some "resolved".
Proof.
  apply (create_task_explicit_status resolved_data [sample_task]
           "resolved" "STAT002" "user1" None);
    vm_compute; reflexivity.
Defined.

(** ** Delete *)



(** ** Update *)

Section update.
Implicit Types (rows : list Task.t) (body : gmap string json).
Implicit Types (task : Task.t) (task_update : TaskUpdate.t).

(** The loop of lines 115-117 on a validated body, attribute by
    attribute. *)
Lemma apply_task_data_dump body task_update task :
  validate_TaskUpdate body = inr task_update →
  apply_task_data task (model_dump_exclude_unset task_update)
  = Task.mk (Task.id task)
      (supplied body "complain_no" (Task.complain_no task))
      (supplied body "complain_remarks" (Task.complain_remarks task))
      (supplied body "complain_status" (Task.complain_status task))
      (supplied body "created_by" (Task.created_by task)).
Proof.
  unfold validate_TaskUpdate, optional_str, supplied, TaskUpdate_fields.
  rewrite !filter_cons, filter_nil. intros Hvalid. destruct task.
  destruct (body !! "complain_no") as [[]|];
    destruct (body !! "complain_remarks") as [[]|];
    destruct (body !! "complain_status") as [[]|];
    destruct (body !! "created_by") as [[]|];
    try discriminate Hvalid; injection Hvalid as <-; vm_compute; reflexivity.
Qed.

Lemma getattr_updated body task_update task key :
  key ∈ TaskUpdate_fields →
  validate_TaskUpdate body = inr task_update →
  getattr (apply_task_data task (model_dump_exclude_unset task_update)) key
  = supplied body key (getattr task key).
Proof.
  intros Hkey Hvalid. rewrite (apply_task_data_dump body _ _ Hvalid).
  unfold TaskUpdate_fields in Hkey.
  repeat (apply elem_of_cons in Hkey as [->|Hkey]); [reflexivity..|].
  by apply elem_of_nil in Hkey.
Qed.

Lemma id_updated body task_update task :
  validate_TaskUpdate body = inr task_update →
  Task.id (apply_task_data task (model_dump_exclude_unset task_update))
  = Task.id task.
Proof. intros Hvalid. by rewrite (apply_task_data_dump body _ _ Hvalid). Qed.

Lemma validate_TaskUpdate_inr body :
  (∀ key, key ∈ TaskUpdate_fields → is_Some (optional_str body key)) →
  ∃ task_update, validate_TaskUpdate body = inr task_update.
Proof.
  intros Hall. unfold validate_TaskUpdate.
  destruct (Hall "complain_no") as [? ->]; [repeat constructor|].
  destruct (Hall "complain_remarks") as [? ->]; [repeat constructor|].
  destruct (Hall "complain_status") as [? ->]; [repeat constructor|].
  destruct (Hall "created_by") as [? ->]; [repeat constructor|].
  by eexists.
Qed.

Lemma validate_TaskUpdate_fields body task_update key :
  validate_TaskUpdate body = inr task_update →
  key ∈ TaskUpdate_fields → is_Some (optional_str body key).
Proof.
  unfold validate_TaskUpdate, TaskUpdate_fields. intros Hvalid Hkey.
  destruct (optional_str body "complain_no") eqn:?,
    (optional_str body "complain_remarks") eqn:?,
    (optional_str body "complain_status") eqn:?,
    (optional_str body "created_by") eqn:?; try discriminate Hvalid.
  repeat (apply elem_of_cons in Hkey as [->|Hkey]); [by eexists..|].
  by apply elem_of_nil in Hkey.
Qed.

(** The route on a stored record and a validated body: the commit
    decides between 200 and the unhandled IntegrityError. *)
Lemma update_task_run rows task_id task body task_update :
  row_with_id rows task_id = Some task →
  validate_TaskUpdate body = inr task_update →
  let task' := apply_task_data task (model_dump_exclude_unset task_update) in
  if not_null task' then
    ∃ rows', update_task task_id body rows = (Response 200 task', rows') ∧
             row_with_id rows' task_id = Some task'
  else update_task task_id body rows = (Raised "IntegrityError", rows).
Proof.
  intros Hget Hvalid task'. unfold update_task, session_get. rewrite Hvalid, Hget.
  fold task'. destruct (row_with_id_Some _ _ _ Hget) as [Hid _].
  assert (Task.id task' = Some task_id) as Hid'.
  { unfold task'. by rewrite (id_updated body). }
  destruct (commit_dirty task' rows) as [rows'|] eqn:Hcommit.
  - pose proof (row_with_id_commit_dirty _ _ _ _ _ Hget Hid' Hcommit) as Hget'.
    unfold commit_dirty in Hcommit.
    destruct (not_null task'); [|done].
    exists rows'. unfold refresh. rewrite Hid'. simpl. by rewrite Hget'.
  - unfold commit_dirty in Hcommit. by destruct (not_null task').
Qed.
End update.

(** C1, as the route behaves.  For a stored record and a validated
    update body: on the object in memory every field supplied as null
    becomes None and every absent field keeps its value; when the object
    then satisfies the NOT NULL columns the update is committed and the
    route answers 200 with that object, which a later fetch returns; and
    this is the case as soon as the stored record satisfies them and no
    null is supplied for complain_no, complain_status or created_by, so
    that a null for complain_remarks always clears it. *)
Theorem update_task_null_and_absent (rows : list Task.t) (task_id : Z)
    (task : Task.t) (body : gmap string json) (task_update : TaskUpdate.t) :
  row_with_id rows task_id = Some task →
  validate_TaskUpdate body = inr task_update →
  Forall (λ key,
      (body !! key = Some JNull →
       getattr (apply_task_data task (model_dump_exclude_unset task_update))
         key = None) ∧
      (body !! key = None →
       getattr (apply_task_data task (model_dump_exclude_unset task_update))
         key = getattr task key))
    TaskUpdate_fields ∧
  (not_null (apply_task_data task (model_dump_exclude_unset task_update))
   = true →
   ∃ rows',
     update_task task_id body rows
     = (Response 200
          (apply_task_data task (model_dump_exclude_unset task_update)),
        rows') ∧
     get_task task_id rows'
     = Response 200
         (apply_task_data task (model_dump_exclude_unset task_update))) ∧
  (not_null task = true →
   body !! "complain_no" ≠ Some JNull →
   body !! "complain_status" ≠ Some JNull →
   body !! "created_by" ≠ Some JNull →
   not_null (apply_task_data task (model_dump_exclude_unset task_update))
   = true).
Proof.
  intros Hget Hvalid. split; [|split].
  - apply Forall_forall. intros key Hkey.
    rewrite (getattr_updated body _ _ _ Hkey Hvalid). unfold supplied.
    split; by intros ->.
  - intros Hok. pose proof (update_task_run _ _ _ _ _ Hget Hvalid) as Hrun.
    simpl in Hrun. rewrite Hok in Hrun. destruct Hrun as (rows' & Hrun & Hget').
    exists rows'. split; [done|]. unfold get_task, session_get. by rewrite Hget'.
  - intros Hok Hno Hstatus Hby.
    rewrite (apply_task_data_dump body _ _ Hvalid).
    pose proof (validate_TaskUpdate_fields body _ "complain_no" Hvalid) as Vno.
    pose proof (validate_TaskUpdate_fields body _ "complain_status" Hvalid)
      as Vstatus.
    pose proof (validate_TaskUpdate_fields body _ "created_by" Hvalid) as Vby.
    destruct Vno as [? Vno]; [repeat constructor|].
    destruct Vstatus as [? Vstatus]; [repeat constructor|].
    destruct Vby as [? Vby]; [repeat constructor|].
    unfold not_null, supplied, optional_str in *.
    destruct task as [i [no|] remarks [status|] [by_|]]; simpl in *;
      try discriminate Hok.
    destruct (body !! "complain_no") as [[]|];
      destruct (body !! "complain_status") as [[]|];
      destruct (body !! "created_by") as [[]|];
      done.
Qed.

Lemma update_task_null_and_absent_witness :
  clear_remarks !! "complain_remarks" = Some JNull ∧
  ∃ rows',
    update_task 1 clear_remarks [sample_task]
    = (Response 200
         (Task.mk (Some 1) (Some "TEST001") None (Some "pending")
            (Some "test_user")), rows') ∧
    get_task 1 rows'
    = Response 200
        (Task.mk (Some 1) (Some "TEST001") None (Some "pending")
           (Some "test_user")).
Proof.
  split; [reflexivity|].
  refine (proj1 (proj2
    (update_task_null_and_absent [sample_task] 1 sample_task clear_remarks
       (TaskUpdate.mk None None None None ["complain_remarks"])
       _ _)) _); vm_compute; reflexivity.
Defined.

(** C1, as the claim reads, fails on a required field: a null for
    complain_no is refused by the commit, and the stored record keeps its
    complain_no. *)
Lemma update_task_null_required_counterexample :
  row_with_id [sample_task] 1 = Some sample_task ∧
  ({[ "complain_no" := JNull ]} : gmap string json) !! "complain_no"
  = Some JNull ∧
  update_task 1 {[ "complain_no" := JNull ]} [sample_task]
  = (Raised "IntegrityError", [sample_task]) ∧
  get_task 1 (update_task 1 {[ "complain_no" := JNull ]} [sample_task]).2
  = Response 200 sample_task ∧
  Task.complain_no sample_task = Some "TEST001".
Proof. vm_compute. repeat split. Qed.

(** C3. When an update body supplies at most the field [key] of the four,
    then whatever the route answers, the record stored under the id
    afterwards has the id and every field other than [key] as before, and
    a record the route returns is that stored record. *)
Theorem update_task_one_field (rows : list Task.t) (task_id : Z)
    (task : Task.t) (body : gmap string json) (key : string) :
  row_with_id rows task_id = Some task →
  Forall (λ key', key' = key ∨ body !! key' = None) TaskUpdate_fields →
  ∃ task',
    get_task task_id (update_task task_id body rows).2 = Response 200 task' ∧
    Task.id task' = Task.id task ∧
    Forall (λ key', key' = key ∨ getattr task' key' = getattr task key')
      TaskUpdate_fields ∧
    (∀ status_code returned,
       (update_task task_id body rows).1 = Response status_code returned →
       returned = task').
Proof.
  intros Hget Hothers.
  assert (∃ task', get_task task_id rows = Response 200 task' ∧
            Task.id task' = Task.id task ∧
            Forall (λ key', key' = key ∨ getattr task' key' = getattr task key')
              TaskUpdate_fields) as Hsame.
  { exists task. unfold get_task, session_get. rewrite Hget. repeat split.
    apply Forall_forall. by right. }
  destruct (validate_TaskUpdate body) as [fields|task_update] eqn:Hvalid.
  { unfold update_task, session_get. rewrite Hvalid. simpl.
    destruct Hsame as (task' & ? & ? & ?). exists task'. by repeat split. }
  pose proof (update_task_run _ _ _ _ _ Hget Hvalid) as Hrun. simpl in Hrun.
  destruct (not_null _).
  - destruct Hrun as (rows' & -> & Hget'). simpl. eexists. split.
    { unfold get_task, session_get. by rewrite Hget'. }
    split; [by rewrite (id_updated body)|]. split.
    + apply Forall_forall. intros key' Hkey'.
      rewrite Forall_forall in Hothers.
      destruct (Hothers key' Hkey') as [->|Habsent]; [by left|right].
      rewrite (getattr_updated body _ _ _ Hkey' Hvalid). unfold supplied.
      by rewrite Habsent.
    + by intros ? ? [= _ <-].
  - rewrite Hrun. simpl.
    destruct Hsame as (task' & ? & ? & ?). exists task'. by repeat split.
Qed.

Lemma update_task_one_field_witness :
  ∃ task',
    get_task 1
      (update_task 1 {[ "complain_status" := JString "in_progress" ]}
         [sample_task]).2 = Response 200 task' ∧
    Task.id task' = Task.id sample_task ∧
    Forall (λ key', key' = "complain_status"
                    ∨ getattr task' key' = getattr sample_task key')
      TaskUpdate_fields ∧
    (∀ status_code returned,
       (update_task 1 {[ "complain_status" := JString "in_progress" ]}
          [sample_task]).1 = Response status_code returned →
       returned = task').
Proof.
  apply (update_task_one_field [sample_task] 1 sample_task
           {[ "complain_status" := JString "in_progress" ]} "complain_status").
  - reflexivity.
  - unfold TaskUpdate_fields.
    repeat (apply Forall_cons; split;
            [first [by left | right; vm_compute; reflexivity]|]).
    apply Forall_nil. exact I.
Defined.

(** C8. Validation of an update body accepts null for each of the four
    fields, the required ones included: putting null under a field of a
    valid body gives a valid body whose dump holds (field, None).  On a
    stored record the route does not answer it with a validation error:
    its loop leaves the field None on the object in memory, and its
    answer is what the commit of that object gives, 200 with the object
    or IntegrityError; for complain_no, complain_status and created_by
    the commit of the null is refused, so the answer is IntegrityError
    and the table is unchanged. *)
Theorem update_task_accepts_null (body : gmap string json)
    (task_update : TaskUpdate.t) (key : string) :
  key ∈ TaskUpdate_fields →
  validate_TaskUpdate body = inr task_update →
  ∃ task_update',
    validate_TaskUpdate (<[key:=JNull]> body) = inr task_update' ∧
    (key, None) ∈ model_dump_exclude_unset task_update' ∧
    ∀ rows task_id task,
      row_with_id rows task_id = Some task →
      getattr (apply_task_data task (model_dump_exclude_unset task_update'))
        key = None ∧
      (∀ fields,
         (update_task task_id (<[key:=JNull]> body) rows).1
         ≠ RequestValidationError fields) ∧
      update_task task_id (<[key:=JNull]> body) rows
      = match commit_dirty
                (apply_task_data task (model_dump_exclude_unset task_update'))
                rows with
        | Some rows' =>
            (Response 200
               (apply_task_data task (model_dump_exclude_unset task_update')),
             rows')
        | None => (Raised "IntegrityError", rows)
        end ∧
      (key ∈ required_fields →
       update_task task_id (<[key:=JNull]> body) rows
       = (Raised "IntegrityError", rows)).
Proof.
  intros Hkey Hvalid.
  destruct (validate_TaskUpdate_inr (<[key:=JNull]> body)) as [task_update' Hvalid'].
  { intros key' Hkey'. unfold optional_str.
    destruct (decide (key = key')) as [->|Hne].
    - rewrite lookup_insert_eq. by eexists.
    - rewrite lookup_insert_ne by done.
      by apply (validate_TaskUpdate_fields body task_update). }
  exists task_update'. split; [done|]. split.
  - clear Hvalid. revert Hvalid'.
    unfold validate_TaskUpdate, optional_str, TaskUpdate_fields in *.
    rewrite !filter_cons, filter_nil. intros Hvalid'.
    repeat (apply elem_of_cons in Hkey as [->|Hkey]);
      [..|by apply elem_of_nil in Hkey];
      rewrite ?lookup_insert_eq in Hvalid';
      repeat match type of Hvalid' with
        | context [ <[?k:=JNull]> body !! ?k' ] =>
            destruct (<[k:=JNull]> body !! k') as [[]|]
        end;
      try discriminate Hvalid'; injection Hvalid' as <-;
      vm_compute; repeat constructor.
  - intros rows task_id task Hget.
    assert (getattr
              (apply_task_data task (model_dump_exclude_unset task_update'))
              key = None) as Hnull.
    { rewrite (getattr_updated _ _ _ _ Hkey Hvalid'). unfold supplied.
      by rewrite lookup_insert_eq. }
    destruct (row_with_id_Some _ _ _ Hget) as [Hid _].
    pose proof (id_updated _ _ task Hvalid') as Hid'. rewrite Hid in Hid'.
    assert (update_task task_id (<[key:=JNull]> body) rows
            = match commit_dirty
                      (apply_task_data task
                         (model_dump_exclude_unset task_update')) rows with
              | Some rows' =>
                  (Response 200
                     (apply_task_data task
                        (model_dump_exclude_unset task_update')), rows')
              | None => (Raised "IntegrityError", rows)
              end) as Hrun.
    { unfold update_task.
      rewrite Hvalid', (session_get_stored _ _ _ Hget). cbn zeta.
      destruct (commit_dirty _ rows) as [rows'|] eqn:Hcommit; [|done].
      unfold refresh. rewrite Hid'. simpl.
      by rewrite (row_with_id_commit_dirty _ _ _ _ _ Hget Hid' Hcommit). }
    split; [exact Hnull|]. split; [|split; [exact Hrun|]].
    + intros fields. rewrite Hrun. by destruct (commit_dirty _ rows).
    + intros Hrequired. rewrite Hrun. unfold commit_dirty.
      assert (not_null
                (apply_task_data task (model_dump_exclude_unset task_update'))
              = false) as ->; [|done].
      revert Hnull. unfold required_fields in Hrequired.
      destruct (apply_task_data task _) as [i no remarks status by_].
      unfold getattr, not_null. simpl.
      repeat (apply elem_of_cons in Hrequired as [->|Hrequired]);
        [..|by apply elem_of_nil in Hrequired];
        simpl; intros ->; simpl; by rewrite ?andb_false_r.
Qed.

Lemma update_task_accepts_null_witness :
  ∃ task_update',
    validate_TaskUpdate (<[ "complain_no" := JNull ]> ∅) = inr task_update' ∧
    ("complain_no", None) ∈ model_dump_exclude_unset task_update' ∧
    ∀ rows task_id task,
      row_with_id rows task_id = Some task →
      getattr (apply_task_data task (model_dump_exclude_unset task_update'))
        "complain_no" = None ∧
      (∀ fields,
         (update_task task_id (<[ "complain_no" := JNull ]> ∅) rows).1
         ≠ RequestValidationError fields) ∧
      update_task task_id (<[ "complain_no" := JNull ]> ∅) rows
      = match commit_dirty
                (apply_task_data task (model_dump_exclude_unset task_update'))
                rows with
        | Some rows' =>
            (Response 200
               (apply_task_data task (model_dump_exclude_unset task_update')),
             rows')
        | None => (Raised "IntegrityError", rows)
        end ∧
      ("complain_no" ∈ required_fields →
       update_task task_id (<[ "complain_no" := JNull ]> ∅) rows
       = (Raised "IntegrityError", rows)).
Proof.
  apply (update_task_accepts_null ∅ (TaskUpdate.mk None None None None [])
           "complain_no").
  - repeat constructor.
  - vm_compute. reflexivity.
Defined.

(** ** The invariant of the table *)

Section invariant.
Implicit Types (rows : list Task.t) (body : gmap string json).

Lemma table_ok_nil : table_ok [].
Proof. split; [apply Forall_nil; exact I | apply NoDup_nil; exact I]. Qed.

Lemma create_task_table_ok body rows :
  table_ok rows → table_ok (create_task body rows).2.
Proof.
  intros [Hrows Hids].
  destruct (validate_TaskCreate body) as [fields|task] eqn:Hvalid.
  { by rewrite (create_task_rejected _ _ _ Hvalid). }
  rewrite (create_task_validated _ _ _ Hvalid). simpl. split.
  - apply Forall_app. split; [done|].
    apply Forall_singleton. split; [by eexists | done].
  - rewrite fmap_app. apply NoDup_app. split; [done|].
    split; [|apply NoDup_singleton].
    intros i (row & -> & Hrow)%list_elem_of_fmap Hnew%list_elem_of_singleton.
    by apply (proj1 (row_with_id_None rows (next_id rows))
                (next_id_fresh rows) row).
Qed.

Lemma commit_dirty_table_ok task rows rows' :
  is_Some (Task.id task) → commit_dirty task rows = Some rows' →
  table_ok rows → table_ok rows'.
Proof.
  unfold commit_dirty. intros Hid Hcommit [Hrows Hids].
  destruct (not_null task) eqn:Hok; [|done]. injection Hcommit as <-.
  split.
  - apply Forall_fmap. eapply Forall_impl; [exact Hrows|].
    intros row Hrow. simpl.
    by destruct (bool_decide (Task.id row = Task.id task)).
  - rewrite <-list_fmap_compose.
    erewrite list_fmap_ext; [exact Hids|].
    intros _ row _. simpl.
    destruct (bool_decide (Task.id row = Task.id task)) eqn:Hrow; [|done].
    by apply bool_decide_eq_true in Hrow.
Qed.

Lemma update_task_table_ok task_id body rows :
  table_ok rows → table_ok (update_task task_id body rows).2.
Proof.
  intros Hok. unfold update_task, session_get.
  destruct (validate_TaskUpdate body) as [fields|task_update] eqn:Hvalid;
    [done|].
  destruct (row_with_id rows task_id) as [task|] eqn:Hget;
    [|by destruct (decide (int64 task_id))].
  destruct (row_with_id_Some _ _ _ Hget) as [Hid _].
  destruct (commit_dirty _ rows) as [rows'|] eqn:Hcommit; [|done].
  assert (table_ok rows') as Hok'.
  { eapply commit_dirty_table_ok; [|exact Hcommit|exact Hok].
    rewrite (id_updated body _ _ Hvalid), Hid. by eexists. }
  by destruct (refresh _ rows').
Qed.

Lemma delete_task_table_ok task_id rows :
  table_ok rows → table_ok (delete_task task_id rows).2.
Proof.
  intros [Hrows Hids]. unfold delete_task, session_get.
  destruct (row_with_id rows task_id) as [task|];
    [|by destruct (decide (int64 task_id))].
  simpl. unfold commit_deleted. split.
  - apply Forall_forall. intros row [_ Hin]%list_elem_of_filter.
    by apply (proj1 (Forall_forall _ _) Hrows).
  - induction rows as [|row rows IH]; [done|].
    rewrite fmap_cons in Hids. apply NoDup_cons in Hids as [Hnew Hids].
    apply Forall_cons in Hrows as [_ Hrows].
    rewrite filter_cons. destruct (decide _); [|by apply IH].
    rewrite fmap_cons. apply NoDup_cons. split; [|by apply IH].
    intros (row' & Heq & [_ Hin]%list_elem_of_filter)%list_elem_of_fmap.
    apply Hnew, list_elem_of_fmap. by exists row'.
Qed.

(** A stored record meets the NOT NULL columns. *)
Lemma table_ok_not_null rows task_id task :
  table_ok rows → row_with_id rows task_id = Some task →
  not_null task = true.
Proof.
  intros [Hrows _] [_ Hin]%row_with_id_Some.
  by apply (proj1 (Forall_forall _ _) Hrows task).
Qed.
End invariant.

(** ** List *)

Section list.
Implicit Types (rows tasks : list Task.t) (statement : Select).

Lemma filter_ext_elem_of {A} (P Q : A → Prop)
    `{!∀ x, Decision (P x)} `{!∀ x, Decision (Q x)} (l : list A) :
  (∀ x, x ∈ l → P x ↔ Q x) → filter P l = filter Q l.
Proof.
  induction l as [|x l IH]; intros Hext; [done|].
  rewrite !filter_cons.
  assert (filter P l = filter Q l) as ->.
  { apply IH. intros y Hy. apply Hext. by right. }
  pose proof (Hext x (list_elem_of_here x l)) as Hx.
  destruct (decide (P x)), (decide (Q x)); tauto.
Qed.

(** The rows two selections share are the rows that meet both
    conditions. *)
Lemma list_intersection_filter {A} `{!EqDecision A} (P Q : A → Prop)
    `{!∀ x, Decision (P x)} `{!∀ x, Decision (Q x)} (l : list A) :
  list_intersection (filter P l) (filter Q l) = filter (λ x, P x ∧ Q x) l.
Proof.
  transitivity (filter (.∈ filter Q l) (filter P l)).
  { induction (filter P l) as [|x k IH]; [done|].
    rewrite filter_cons. simpl. rewrite IH.
    reflexivity. }
  rewrite list_filter_filter.
  apply filter_ext_elem_of. intros x Hx.
  rewrite list_elem_of_filter. tauto.
Qed.

Lemma apply_offset_subseteq clause rows : apply_offset clause rows ⊆ rows.
Proof. destruct clause; simpl; [apply subseteq_drop | done]. Qed.

Lemma apply_limit_subseteq clause rows : apply_limit clause rows ⊆ rows.
Proof.
  destruct clause as [n|]; simpl; [|done].
  destruct (bool_decide (n < 0)); [done | apply subseteq_take].
Qed.

(** Every row a statement returns is a row of the table that meets each
    of its criteria. *)
Lemma exec_elem_of statement rows task :
  task ∈ exec statement rows →
  task ∈ rows ∧
  ∀ criterion, criterion ∈ whereclause statement → criterion task = true.
Proof.
  unfold exec. intros Hin.
  apply apply_limit_subseteq, apply_offset_subseteq in Hin.
  apply list_elem_of_filter in Hin as [Hall Hin]. split; [done|].
  intros criterion Hcrit. rewrite forallb_forall in Hall.
  apply Hall. by apply list_elem_of_In.
Qed.

Lemma exec_length statement rows :
  (length (exec statement rows) ≤ length rows)%nat.
Proof.
  unfold exec.
  match goal with
  | |- context [ apply_offset _ ?matching ] =>
      assert (length matching ≤ length rows)%nat by apply length_filter;
      generalize dependent matching
  end.
  intros matching Hmatching.
  destruct (limit_clause statement) as [n|], (offset_clause statement) as [m|];
    simpl; try destruct (bool_decide (n < 0));
    rewrite ?length_take, ?length_drop; lia.
Qed.

Lemma exec_limit statement rows n :
  limit_clause statement = Some n → 0 ≤ n →
  Z.of_nat (length (exec statement rows)) ≤ n.
Proof.
  unfold exec. intros -> Hn. simpl.
  rewrite bool_decide_eq_false_2 by lia. rewrite length_take. lia.
Qed.

Lemma list_tasks_exec status created_by skip limit_ rows :
  int64 skip → int64 limit_ →
  list_tasks status created_by skip limit_ rows
  = Response 200 (exec (list_statement status created_by skip limit_) rows).
Proof.
  intros Hskip Hlimit. unfold list_tasks, session_exec.
  by rewrite decide_True.
Qed.

Lemma list_tasks_overflow status created_by skip limit_ rows :
  ¬ (int64 skip ∧ int64 limit_) →
  list_tasks status created_by skip limit_ rows = Raised "OverflowError".
Proof.
  intros Hrange. unfold list_tasks, session_exec.
  by rewrite decide_False.
Qed.

Lemma int64_of_nat (n : nat) m :
  int64 (Z.of_nat (n + m)) → int64 (Z.of_nat n) ∧ int64 0.
Proof. unfold int64. lia. Qed.

Lemma whereclause_list_statement status created_by skip limit_ :
  whereclause (list_statement status created_by skip limit_)
  = whereclause
      (if_truthy created_by (λ v, where_ (col_eq Task.created_by v))
         (if_truthy status (λ v, where_ (col_eq Task.complain_status v))
            select_Task)).
Proof. reflexivity. Qed.

Lemma list_tasks_by_status a created_by skip limit_ rows :
  a ≠ "" →
  Forall (λ task, Task.complain_status task = Some a)
    (exec (list_statement (Some a) created_by skip limit_) rows).
Proof.
  intros Ha. apply Forall_forall. intros task [_ Hcrit]%exec_elem_of.
  specialize (Hcrit (col_eq Task.complain_status a)).
  unfold col_eq in Hcrit. eapply bool_decide_eq_true_1, Hcrit.
  rewrite whereclause_list_statement. simpl.
  rewrite bool_decide_eq_false_2 by done.
  destruct created_by as [b|]; simpl; [|by left].
  destruct (bool_decide (b = "")); simpl; by left.
Qed.

Lemma list_tasks_by_creator status b skip limit_ rows :
  b ≠ "" →
  Forall (λ task, Task.created_by task = Some b)
    (exec (list_statement status (Some b) skip limit_) rows).
Proof.
  intros Hb. apply Forall_forall. intros task [_ Hcrit]%exec_elem_of.
  specialize (Hcrit (col_eq Task.created_by b)).
  unfold col_eq in Hcrit. eapply bool_decide_eq_true_1, Hcrit.
  rewrite whereclause_list_statement. simpl.
  rewrite bool_decide_eq_false_2 by done.
  destruct status as [a|]; simpl; [|by left].
  destruct (bool_decide (a = "")); simpl; [by left | right; by left].
Qed.

Lemma exec_where_only criterion rows :
  exec (where_ criterion select_Task) rows
  = filter (λ row, criterion row = true) rows.
Proof.
  unfold exec. simpl. apply list_filter_iff. intros row.
  by rewrite andb_true_r.
Qed.

(** With both filters in force the selected rows are those the two
    single-filter statements both select. *)
Lemma exec_both_filters a b rows :
  a ≠ "" → b ≠ "" →
  ∀ skip limit_,
    exec (list_statement (Some a) (Some b) skip limit_) rows
    = apply_limit (Some limit_)
        (apply_offset (Some skip)
           (list_intersection
              (exec (where_ (col_eq Task.complain_status a) select_Task) rows)
              (exec (where_ (col_eq Task.created_by b) select_Task) rows))).
Proof.
  intros Ha Hb skip limit_.
  rewrite !exec_where_only, list_intersection_filter.
  unfold exec, list_statement, if_truthy.
  rewrite !bool_decide_eq_false_2 by done.
  cbn [whereclause limit_clause offset_clause limit offset where_
         select_Task app forallb].
  do 2 f_equal. apply list_filter_iff. intros row.
  rewrite andb_true_r, andb_true_iff. tauto.
Qed.

Lemma exec_unpaged status created_by rows (n : nat) :
  exec (list_statement status created_by 0 (Z.of_nat (length rows + n))) rows
  = filter (λ row,
       forallb (λ criterion, criterion row)
         (whereclause (list_statement status created_by 0 0)) = true) rows.
Proof.
  unfold exec. rewrite !whereclause_list_statement. simpl.
  rewrite bool_decide_eq_false_2 by lia. rewrite drop_0.
  apply take_ge. rewrite Nat2Z.id.
  etransitivity; [apply length_filter | lia].
Qed.
End list.

(** C2, as the route behaves, for skip and limit in the signed 64-bit
    range.  A filter that is a non-empty string holds of every returned
    record, whatever the other parameters; with two non-empty filters the
    response is the skip/limit window of the
    intersection of the two single-filter selections, and it is the
    intersection of the two single-filter responses when skip is 0 and
    limit is at least the number of rows; an empty-string filter is
    ignored, like an absent one. *)
Theorem list_tasks_filters (a b : string) (skip limit_ : Z)
    (rows : list Task.t) :
  a ≠ "" → b ≠ "" → int64 skip → int64 limit_ →
  (∀ created_by, ∃ tasks,
     list_tasks (Some a) created_by skip limit_ rows = Response 200 tasks ∧
     Forall (λ task, Task.complain_status task = Some a) tasks) ∧
  (∀ status, ∃ tasks,
     list_tasks status (Some b) skip limit_ rows = Response 200 tasks ∧
     Forall (λ task, Task.created_by task = Some b) tasks) ∧
  list_tasks (Some a) (Some b) skip limit_ rows
  = Response 200
      (apply_limit (Some limit_)
         (apply_offset (Some skip)
            (list_intersection
               (exec (where_ (col_eq Task.complain_status a) select_Task) rows)
               (exec (where_ (col_eq Task.created_by b) select_Task) rows)))) ∧
  (∀ n : nat, int64 (Z.of_nat (length rows + n)) →
   ∃ by_status by_creator,
     list_tasks (Some a) None 0 (Z.of_nat (length rows + n)) rows
     = Response 200 by_status ∧
     list_tasks None (Some b) 0 (Z.of_nat (length rows + n)) rows
     = Response 200 by_creator ∧
     list_tasks (Some a) (Some b) 0 (Z.of_nat (length rows + n)) rows
     = Response 200 (list_intersection by_status by_creator)) ∧
  (∀ created_by,
     list_tasks (Some "") created_by skip limit_ rows
     = list_tasks None created_by skip limit_ rows) ∧
  (∀ status,
     list_tasks status (Some "") skip limit_ rows
     = list_tasks status None skip limit_ rows).
Proof.
  intros Ha Hb Hskip Hlimit. repeat split.
  - intros created_by. eexists. split; [by apply list_tasks_exec|].
    by apply list_tasks_by_status.
  - intros status. eexists. split; [by apply list_tasks_exec|].
    by apply list_tasks_by_creator.
  - rewrite list_tasks_exec by done. f_equal. by apply exec_both_filters.
  - intros n Hwide. destruct (int64_of_nat _ _ Hwide) as [_ Hzero].
    rewrite !list_tasks_exec, !exec_unpaged by done.
    eexists _, _. split; [reflexivity|]. split; [reflexivity|]. f_equal.
    rewrite list_intersection_filter.
    rewrite !whereclause_list_statement. unfold if_truthy.
    rewrite !bool_decide_eq_false_2 by done. simpl.
    apply list_filter_iff. intros row.
    rewrite !andb_true_r, andb_true_iff. tauto.
Qed.

Lemma list_tasks_filters_witness :
  ∃ tasks,
    list_tasks (Some "pending") None 0 100 [task_bob; task_alice]
    = Response 200 tasks ∧
    Forall (λ task, Task.complain_status task = Some "pending") tasks.
Proof.
  refine (proj1 (list_tasks_filters "pending" "alice" 0 100
                   [task_bob; task_alice] _ _ _ _) None);
    first [discriminate | unfold int64; lia].
Defined.

(** C2, as the claim reads, fails twice: an empty-string status filter
    returns records whose status is not the empty string, and with
    limit 1 the response to both filters is not the intersection of the
    responses to each. *)
Lemma list_tasks_filters_counterexample :
  list_tasks (Some "") None 0 100 [task_bob; task_alice]
  = Response 200 [task_bob; task_alice] ∧
  Task.complain_status <$> [task_bob; task_alice]
  = [Some "pending"; Some "pending"] ∧
  list_tasks (Some "pending") (Some "alice") 0 1 [task_bob; task_alice]
  = Response 200 [task_alice] ∧
  list_tasks (Some "pending") None 0 1 [task_bob; task_alice]
  = Response 200 [task_bob] ∧
  list_tasks None (Some "alice") 0 1 [task_bob; task_alice]
  = Response 200 [task_alice] ∧
  list_intersection [task_bob] [task_alice] = [].
Proof. vm_compute. repeat split. Qed.

(** C6, as the route behaves.  skip and limit are integers that the
    route does not check: for every skip ≥ 0 and limit ≥ 0 in the signed
    64-bit range the request is answered with 200 and with at most limit
    records, all of them rows of the table. *)
Theorem list_tasks_pagination (status created_by : option string)
    (skip limit_ : Z) (rows : list Task.t) :
  0 ≤ skip → 0 ≤ limit_ → int64 skip → int64 limit_ →
  ∃ tasks,
    list_tasks status created_by skip limit_ rows = Response 200 tasks ∧
    Z.of_nat (length tasks) ≤ limit_ ∧
    (length tasks ≤ length rows)%nat ∧
    tasks ⊆ rows.
Proof.
  intros Hskip Hlimit Rskip Rlimit. eexists.
  split; [by apply list_tasks_exec|].
  split; [by apply (exec_limit _ _ limit_)|].
  split; [apply exec_length|].
  intros task Hin. by apply exec_elem_of in Hin as [Hin _].
Qed.

Lemma list_tasks_pagination_witness :
  ∃ tasks,
    list_tasks None None 0 5000 [sample_task] = Response 200 tasks ∧
    Z.of_nat (length tasks) ≤ 5000 ∧
    (length tasks ≤ length [sample_task])%nat ∧
    tasks ⊆ [sample_task].
Proof.
  apply (list_tasks_pagination None None 0 5000 [sample_task]);
    unfold int64; lia.
Defined.

(** C6, as the claim reads, fails: a limit of 1001 is served, and on a
    table of 1001 rows the response holds 1001 records; a limit of 0 is
    served as well. *)
Lemma list_tasks_pagination_counterexample :
  (∃ tasks, list_tasks None None 0 1001 many_tasks = Response 200 tasks ∧
            length tasks = 1001%nat) ∧
  list_tasks None None 0 0 many_tasks = Response 200 [].
Proof. split; [eexists; split|]; vm_compute; reflexivity. Qed.


(** * Further properties of the routes *)

(** ** What a write leaves alone *)

Section frame.
Implicit Types (rows : list Task.t) (task row : Task.t) (task_id k : Z).

Lemma row_with_id_commit_dirty_ne task rows rows' task_id k :
  commit_dirty task rows = Some rows' → Task.id task = Some task_id →
  k ≠ task_id → row_with_id rows' k = row_with_id rows k.
Proof.
  unfold commit_dirty, row_with_id. intros Hcommit Hid Hne.
  destruct (not_null task); [|done]. injection Hcommit as <-. rewrite Hid.
  induction rows as [|row rows IH]; [done|]. simpl.
  destruct (bool_decide (Task.id row = Some task_id)) eqn:Hrow; simpl.
  - apply bool_decide_eq_true in Hrow. rewrite Hid, Hrow.
    rewrite !bool_decide_eq_false_2 by congruence. exact IH.
  - destruct (bool_decide (Task.id row = Some k)); [done | exact IH].
Qed.

Lemma row_with_id_commit_deleted_ne task rows task_id k :
  Task.id task = Some task_id → k ≠ task_id →
  row_with_id (commit_deleted task rows) k = row_with_id rows k.
Proof.
  unfold commit_deleted, row_with_id. intros Hid Hne. rewrite Hid.
  induction rows as [|row rows IH]; [done|].
  rewrite filter_cons. simpl. destruct (decide _) as [Hkeep|Hdrop]; simpl.
  - by rewrite IH.
  - apply dec_stable in Hdrop. rewrite Hdrop.
    by rewrite bool_decide_eq_false_2 by congruence.
Qed.

Lemma row_with_id_app_old rows row k task :
  row_with_id rows k = Some task → row_with_id (rows ++ [row]) k = Some task.
Proof.
  unfold row_with_id. intros Hget. induction rows as [|row' rows IH]; [done|].
  simpl in *. destruct (bool_decide _); [done | by apply IH].
Qed.

Lemma filter_Forall_all {A} (P : A → Prop) `{!∀ x, Decision (P x)}
    (l : list A) :
  Forall P l → filter P l = l.
Proof.
  induction 1 as [|x l Hx _ IH]; [done|].
  by rewrite filter_cons, decide_True, IH.
Qed.

Lemma filter_Forall_none {A} (P : A → Prop) `{!∀ x, Decision (P x)}
    (l : list A) :
  Forall (λ x, ¬ P x) l → filter P l = [].
Proof.
  induction 1 as [|x l Hx _ IH]; [done|].
  by rewrite filter_cons, decide_False, IH.
Qed.

(** In a table without duplicate ids, two rows with the same id are the
    same row. *)
Lemma table_ok_same_id rows row row' :
  table_ok rows → row ∈ rows → row' ∈ rows → Task.id row = Task.id row' →
  row = row'.
Proof.
  intros [_ Hids]. induction rows as [|r rows IH]; [by intros ?%elem_of_nil|].
  rewrite fmap_cons in Hids. apply NoDup_cons in Hids as [Hnew Hids].
  intros [->|Hin]%elem_of_cons [->|Hin']%elem_of_cons Heq; [done|..].
  - destruct Hnew. rewrite Heq. by apply list_elem_of_fmap_2.
  - destruct Hnew. rewrite <-Heq. by apply list_elem_of_fmap_2.
  - by apply IH.
Qed.
End frame.

(** X1. An update of one id, whatever it is answered with, leaves the
    record fetched under every other id as it was. *)
Theorem update_task_frame (rows : list Task.t) (task_id k : Z)
    (body : gmap string json) :
  k ≠ task_id →
  get_task k (update_task task_id body rows).2 = get_task k rows.
Proof.
  intros Hne. unfold update_task, session_get.
  destruct (validate_TaskUpdate body) as [fields|task_update] eqn:Hvalid;
    [done|].
  destruct (row_with_id rows task_id) as [task|] eqn:Hget;
    [|by destruct (decide (int64 task_id))].
  destruct (row_with_id_Some _ _ _ Hget) as [Hid _].
  destruct (commit_dirty _ rows) as [rows'|] eqn:Hcommit; [|done].
  assert (row_with_id rows' k = row_with_id rows k) as Hsame.
  { eapply row_with_id_commit_dirty_ne; [exact Hcommit| |exact Hne].
    by rewrite (id_updated body _ _ Hvalid). }
  unfold get_task, session_get. destruct (refresh _ rows'); simpl; by rewrite Hsame.
Qed.

Lemma update_task_frame_witness :
  get_task 2
    (update_task 1 {[ "complain_status" := JString "resolved" ]}
       [task_bob; task_alice]).2
  = get_task 2 [task_bob; task_alice].
Proof. apply (update_task_frame [task_bob; task_alice] 1 2). discriminate. Defined.

(** X2. A delete of one id leaves the record fetched under every other id
    as it was. *)
Theorem delete_task_frame (rows : list Task.t) (task_id k : Z) :
  k ≠ task_id →
  get_task k (delete_task task_id rows).2 = get_task k rows.
Proof.
  intros Hne. unfold delete_task, session_get.
  destruct (row_with_id rows task_id) as [task|] eqn:Hget;
    [|by destruct (decide (int64 task_id))].
  destruct (row_with_id_Some _ _ _ Hget) as [Hid _]. simpl.
  unfold get_task, session_get. by rewrite (row_with_id_commit_deleted_ne _ _ task_id).
Qed.

Lemma delete_task_frame_witness :
  get_task 2 (delete_task 1 [task_bob; task_alice]).2
  = get_task 2 [task_bob; task_alice].
Proof. apply (delete_task_frame [task_bob; task_alice] 1 2). discriminate. Defined.

(** X3. In a table whose ids are distinct, deleting a stored record
    removes exactly its row: the rows before it and the rows after it
    stay, in their order. *)
Theorem delete_task_removes_one (rows : list Task.t) (task_id : Z)
    (task : Task.t) :
  table_ok rows → row_with_id rows task_id = Some task →
  ∃ before after,
    rows = (before ++ task :: after)%list ∧
    (delete_task task_id rows).2 = (before ++ after)%list.
Proof.
  intros Hok Hget. destruct (row_with_id_Some _ _ _ Hget) as [Hid Hin].
  destruct (list_elem_of_split _ _ Hin) as (before & after & Hrows).
  exists before, after. split; [done|].
  unfold delete_task, session_get. rewrite Hget. simpl. unfold commit_deleted.
  assert (∀ row, row ∈ before ∨ row ∈ after → Task.id row ≠ Task.id task)
    as Hothers.
  { destruct Hok as [_ Hids]. rewrite Hrows in Hids.
    rewrite fmap_app, fmap_cons in Hids.
    apply NoDup_app in Hids as (_ & Hsep & Hafter).
    apply NoDup_cons in Hafter as [Hnew _].
    intros row [Hrow|Hrow] Heq.
    - apply (Hsep (Task.id row)); [by apply list_elem_of_fmap_2|].
      rewrite Heq. by left.
    - apply Hnew. rewrite <-Heq. by apply list_elem_of_fmap_2. }
  rewrite Hrows, filter_app, filter_cons, decide_False by (by intros []).
  rewrite !filter_Forall_all; [done|..];
    apply Forall_forall; intros row Hrow; apply Hothers; auto.
Qed.

Lemma delete_task_removes_one_witness :
  ∃ before after,
    [task_bob; task_alice] = (before ++ task_alice :: after)%list ∧
    (delete_task 2 [task_bob; task_alice]).2 = (before ++ after)%list.
Proof.
  apply (delete_task_removes_one [task_bob; task_alice] 2 task_alice).
  - split; [repeat constructor; by eexists|]. simpl.
    apply NoDup_cons.
    split; [by intros [=]%list_elem_of_singleton | apply NoDup_singleton].
  - reflexivity.
Defined.

(** X4. A create, accepted or rejected, leaves every stored record
    fetchable under its id, unchanged. *)
Theorem create_task_frame (rows : list Task.t) (k : Z) (task : Task.t)
    (body : gmap string json) :
  row_with_id rows k = Some task →
  get_task k (create_task body rows).2 = Response 200 task.
Proof.
  intros Hget.
  destruct (validate_TaskCreate body) as [fields|create] eqn:Hvalid.
  - rewrite (create_task_rejected _ _ _ Hvalid). simpl.
    unfold get_task, session_get. by rewrite Hget.
  - rewrite (create_task_validated _ _ _ Hvalid). simpl.
    unfold get_task, session_get. by rewrite (row_with_id_app_old _ _ _ _ Hget).
Qed.

Lemma create_task_frame_witness :
  get_task 1 (create_task minimal_data [sample_task]).2
  = Response 200 sample_task.
Proof. apply (create_task_frame [sample_task] 1 sample_task). reflexivity. Defined.

(** X5. Creating a record from a valid payload and then deleting the id
    the create returned gives back the table as it was before the
    create. *)
Theorem create_then_delete (rows : list Task.t) (body : gmap string json)
    (task : TaskCreate.t) :
  validate_TaskCreate body = inr task →
  ∃ db_task task_id,
    (create_task body rows).1 = Response 201 db_task ∧
    Task.id db_task = Some task_id ∧
    delete_task task_id (create_task body rows).2
    = (Response 200 (Deleted.mk "Task deleted successfully" task_id), rows).
Proof.
  intros Hvalid. rewrite (create_task_validated _ _ _ Hvalid). simpl.
  eexists _, (next_id rows). split; [done|]. split; [done|].
  pose proof (next_id_fresh rows) as Hfresh.
  unfold delete_task, session_get.
  erewrite row_with_id_app_new; [|exact Hfresh|reflexivity].
  f_equal. unfold commit_deleted. simpl.
  rewrite filter_app, filter_cons, decide_False, filter_nil, app_nil_r
    by (by intros []).
  apply filter_Forall_all, Forall_forall.
  by apply row_with_id_None.
Qed.

Lemma create_then_delete_witness :
  ∃ db_task task_id,
    (create_task minimal_data [sample_task]).1 = Response 201 db_task ∧
    Task.id db_task = Some task_id ∧
    delete_task task_id (create_task minimal_data [sample_task]).2
    = (Response 200 (Deleted.mk "Task deleted successfully" task_id),
       [sample_task]).
Proof.
  apply (create_then_delete [sample_task] minimal_data
           (TaskCreate.mk "MIN001" None "pending" "test_user")).
  vm_compute. reflexivity.
Defined.

(** ** Updates: what is committed, and how updates compose *)

Section update_more.
Implicit Types (rows : list Task.t) (body : gmap string json).
Implicit Types (task : Task.t) (task_update : TaskUpdate.t) (task_id : Z).

(** The row an UPDATE writes replaces the rows with its id. *)
Lemma update_task_commits rows task_id task body task_update :
  row_with_id rows task_id = Some task →
  validate_TaskUpdate body = inr task_update →
  not_null (apply_task_data task (model_dump_exclude_unset task_update))
  = true →
  update_task task_id body rows
  = (Response 200
       (apply_task_data task (model_dump_exclude_unset task_update)),
     (λ row, if bool_decide (Task.id row = Some task_id)
             then apply_task_data task (model_dump_exclude_unset task_update)
             else row) <$> rows).
Proof.
  intros Hget Hvalid Hok.
  destruct (row_with_id_Some _ _ _ Hget) as [Hid _].
  pose proof (id_updated body _ task Hvalid) as Hid'. rewrite Hid in Hid'.
  assert (commit_dirty
            (apply_task_data task (model_dump_exclude_unset task_update)) rows
          = Some ((λ row, if bool_decide (Task.id row = Some task_id)
                          then apply_task_data task
                                 (model_dump_exclude_unset task_update)
                          else row) <$> rows)) as Hcommit.
  { unfold commit_dirty. by rewrite Hok, Hid'. }
  unfold update_task, session_get. rewrite Hvalid, Hget. simpl. rewrite Hcommit.
  unfold refresh. rewrite Hid'. simpl.
  by rewrite (row_with_id_commit_dirty _ _ _ _ _ Hget Hid' Hcommit).
Qed.

(** A 2xx answer of the route tells how it was reached. *)
Lemma update_task_inv rows rows' task_id body status_code returned :
  update_task task_id body rows = (Response status_code returned, rows') →
  ∃ task task_update,
    row_with_id rows task_id = Some task ∧
    validate_TaskUpdate body = inr task_update ∧
    returned = apply_task_data task (model_dump_exclude_unset task_update) ∧
    not_null returned = true ∧ status_code = 200 ∧
    rows' = (λ row, if bool_decide (Task.id row = Some task_id)
                    then returned else row) <$> rows.
Proof.
  intros Hrun.
  destruct (validate_TaskUpdate body) as [fields|task_update] eqn:Hvalid.
  { unfold update_task, session_get in Hrun. by rewrite Hvalid in Hrun. }
  destruct (row_with_id rows task_id) as [task|] eqn:Hget.
  2: { unfold update_task, session_get in Hrun. rewrite Hvalid, Hget in Hrun.
       by destruct (decide (int64 task_id)). }
  exists task, task_update.
  pose proof (update_task_run _ _ _ _ _ Hget Hvalid) as Hfail. simpl in Hfail.
  destruct (not_null (apply_task_data task _)) eqn:Hok.
  - rewrite (update_task_commits _ _ _ _ _ Hget Hvalid Hok) in Hrun.
    injection Hrun as <- <- <-. by rewrite Hok.
  - by rewrite Hfail in Hrun.
Qed.

Lemma supplied_union (b1 b2 : gmap string json) key old :
  supplied (b2 ∪ b1) key old = supplied b2 key (supplied b1 key old).
Proof.
  unfold supplied. rewrite lookup_union.
  by destruct (b2 !! key) as [[]|], (b1 !! key) as [[]|].
Qed.

Lemma optional_str_union (b1 b2 : gmap string json) key :
  is_Some (optional_str b1 key) → is_Some (optional_str b2 key) →
  is_Some (optional_str (b2 ∪ b1) key).
Proof.
  unfold optional_str. rewrite lookup_union.
  by destruct (b2 !! key) as [[]|], (b1 !! key) as [[]|].
Qed.

(** With the stored record meeting the NOT NULL columns, the updated
    object meets them exactly when no null is supplied for one of them. *)
Lemma not_null_updated body task_update task :
  validate_TaskUpdate body = inr task_update → not_null task = true →
  not_null (apply_task_data task (model_dump_exclude_unset task_update))
  = negb (bool_decide
            (Exists (λ key, body !! key = Some JNull) required_fields)).
Proof.
  intros Hvalid Hok. rewrite (apply_task_data_dump body _ _ Hvalid).
  destruct (validate_TaskUpdate_fields body _ "complain_no" Hvalid)
    as [? Vno]; [repeat constructor|].
  destruct (validate_TaskUpdate_fields body _ "complain_status" Hvalid)
    as [? Vstatus]; [repeat constructor|].
  destruct (validate_TaskUpdate_fields body _ "created_by" Hvalid)
    as [? Vby]; [repeat constructor|].
  unfold not_null, supplied, optional_str, required_fields in *.
  destruct task as [i [no|] remarks [status|] [by_|]]; simpl in *;
    try discriminate Hok.
  case_bool_decide as Hex; rewrite !Exists_cons, Exists_nil in Hex;
    destruct (body !! "complain_no") as [[]|];
    destruct (body !! "complain_status") as [[]|];
    destruct (body !! "created_by") as [[]|];
    try discriminate; simpl; try reflexivity;
    exfalso; intuition congruence.
Qed.
End update_more.

(** X6. In a table the routes can produce, an update whose body supplies
    none of the four fields (the empty object, or keys the schema does
    not declare) is answered with 200 and the stored record, and the
    table is left exactly as it was. *)
Theorem update_task_no_fields (rows : list Task.t) (task_id : Z)
    (task : Task.t) (body : gmap string json) :
  table_ok rows → row_with_id rows task_id = Some task →
  Forall (λ key, body !! key = None) TaskUpdate_fields →
  update_task task_id body rows = (Response 200 task, rows).
Proof.
  intros Hok Hget Habsent. rewrite Forall_forall in Habsent.
  destruct (validate_TaskUpdate_inr body) as [task_update Hvalid].
  { intros key Hkey. unfold optional_str. rewrite (Habsent key Hkey).
    by eexists. }
  assert (apply_task_data task (model_dump_exclude_unset task_update) = task)
    as Hsame.
  { rewrite (apply_task_data_dump body _ _ Hvalid). unfold supplied.
    rewrite !Habsent by repeat constructor. by destruct task. }
  rewrite (update_task_commits _ _ _ _ _ Hget Hvalid); rewrite Hsame.
  2: { by apply (table_ok_not_null rows task_id). }
  f_equal. rewrite <-(list_fmap_id rows) at 2.
  apply list_fmap_ext. intros i row Hrow. simpl.
  case_bool_decide as Hid; [|done].
  destruct (row_with_id_Some _ _ _ Hget) as [Hid' Hin].
  apply (table_ok_same_id rows); [done|done| |congruence].
  by apply list_elem_of_lookup_2 in Hrow.
Qed.

Lemma update_task_no_fields_witness :
  update_task 1 ∅ [sample_task] = (Response 200 sample_task, [sample_task]).
Proof.
  apply (update_task_no_fields [sample_task] 1 sample_task ∅).
  - split; [repeat constructor; by eexists|]. apply NoDup_singleton.
  - reflexivity.
  - repeat constructor.
Defined.

(** X7. Two updates of the same id that are both answered with 200 come
    to the same as one update with the second body laid over the first:
    the same returned record and the same table. *)
Theorem update_task_merge (rows rows1 rows2 : list Task.t) (task_id : Z)
    (b1 b2 : gmap string json) (c1 c2 : Z) (t1 t2 : Task.t) :
  update_task task_id b1 rows = (Response c1 t1, rows1) →
  update_task task_id b2 rows1 = (Response c2 t2, rows2) →
  update_task task_id (b2 ∪ b1) rows = (Response 200 t2, rows2).
Proof.
  intros Hfirst Hsecond.
  apply update_task_inv in Hfirst
    as (task & tu1 & Hget & Hv1 & Ht1 & Hok1 & _ & Hrows1).
  apply update_task_inv in Hsecond
    as (task1 & tu2 & Hget1 & Hv2 & Ht2 & Hok2 & _ & Hrows2).
  destruct (row_with_id_Some _ _ _ Hget) as [Hid _].
  assert (Task.id t1 = Some task_id) as Hid1.
  { by rewrite Ht1, (id_updated b1 _ _ Hv1). }
  assert (task1 = t1) as ->.
  { assert (commit_dirty t1 rows = Some rows1) as Hcommit.
    { unfold commit_dirty. by rewrite Hok1, Hid1, Hrows1. }
    pose proof (row_with_id_commit_dirty _ _ _ _ _ Hget Hid1 Hcommit).
    congruence. }
  destruct (validate_TaskUpdate_inr (b2 ∪ b1)) as [tu Hv].
  { intros key Hkey. apply optional_str_union.
    - by apply (validate_TaskUpdate_fields b1 tu1).
    - by apply (validate_TaskUpdate_fields b2 tu2). }
  assert (apply_task_data task (model_dump_exclude_unset tu) = t2) as Hsame.
  { rewrite Ht2, Ht1.
    rewrite (apply_task_data_dump _ _ _ Hv), (apply_task_data_dump _ _ _ Hv2),
      (apply_task_data_dump _ _ _ Hv1).
    simpl. by rewrite !supplied_union. }
  rewrite (update_task_commits _ _ _ _ _ Hget Hv); rewrite Hsame; [|done].
  f_equal. rewrite Hrows2, Hrows1, <-list_fmap_compose.
  apply list_fmap_ext. intros i row _. simpl.
  case_bool_decide as Hrow; [by rewrite bool_decide_eq_true_2|].
  by rewrite bool_decide_eq_false_2.
Qed.

Lemma update_task_merge_witness :
  update_task 1
    ({[ "complain_remarks" := JString "Final remarks" ]}
     ∪ {[ "complain_status" := JString "resolved" ]}) [sample_task]
  = (Response 200
       (Task.mk (Some 1) (Some "TEST001") (Some "Final remarks")
          (Some "resolved") (Some "test_user")),
     [Task.mk (Some 1) (Some "TEST001") (Some "Final remarks")
        (Some "resolved") (Some "test_user")]).
Proof.
  apply (update_task_merge [sample_task]
           [Task.mk (Some 1) (Some "TEST001") (Some "Test complaint")
              (Some "resolved") (Some "test_user")]
           _ 1 _ _ 200 200
           (Task.mk (Some 1) (Some "TEST001") (Some "Test complaint")
              (Some "resolved") (Some "test_user")));
    vm_compute; reflexivity.
Defined.

(** X8. For a record stored in a table the routes can produce and a body
    that passes validation, the update is answered with 500 when the body
    supplies null for complain_no, complain_status or created_by, and then
    the table is unchanged; otherwise it is answered with 200. *)
Theorem update_task_status (rows : list Task.t) (task_id : Z)
    (task : Task.t) (body : gmap string json) (task_update : TaskUpdate.t) :
  table_ok rows → row_with_id rows task_id = Some task →
  validate_TaskUpdate body = inr task_update →
  status_code_of (update_task task_id body rows).1
  = (if bool_decide (Exists (λ key, body !! key = Some JNull) required_fields)
     then 500 else 200) ∧
  (Exists (λ key, body !! key = Some JNull) required_fields →
   update_task task_id body rows = (Raised "IntegrityError", rows)).
Proof.
  intros Hok Hget Hvalid.
  pose proof (not_null_updated body _ task Hvalid
                (table_ok_not_null _ _ _ Hok Hget)) as Hnn.
  pose proof (update_task_run _ _ _ _ _ Hget Hvalid) as Hrun. simpl in Hrun.
  rewrite Hnn in Hrun. case_bool_decide as Hex; simpl in Hrun.
  - by rewrite Hrun.
  - destruct Hrun as (rows' & -> & _). by split.
Qed.

Lemma update_task_status_witness :
  status_code_of
    (update_task 1 {[ "created_by" := JNull ]} [sample_task]).1 = 500 ∧
  (Exists (λ key, ({[ "created_by" := JNull ]} : gmap string json) !! key
                  = Some JNull) required_fields →
   update_task 1 {[ "created_by" := JNull ]} [sample_task]
   = (Raised "IntegrityError", [sample_task])).
Proof.
  destruct (update_task_status [sample_task] 1 sample_task
              {[ "created_by" := JNull ]}
              (TaskUpdate.mk None None None None ["created_by"]))
    as [_ Hfail].
  - split; [repeat constructor; by eexists|]. apply NoDup_singleton.
  - reflexivity.
  - vm_compute. reflexivity.
  - split; [|exact Hfail]. rewrite Hfail; [reflexivity|].
    unfold required_fields. do 2 apply Exists_cons_tl.
    apply Exists_cons_hd. reflexivity.
Defined.

(** ** Values that are not strings *)

(** X9. A create payload that holds anything but a string (null, a
    boolean, a number) under complain_no, complain_status or created_by is
    answered with a validation error that lists the field, and the table
    is unchanged. *)
Theorem create_task_rejects_non_string (body : gmap string json)
    (rows : list Task.t) (key : string) (v : json) :
  key ∈ required_fields → body !! key = Some v → (∀ s, v ≠ JString s) →
  ∃ fields,
    create_task body rows = (RequestValidationError fields, rows) ∧
    key ∈ fields.
Proof.
  intros Hkey Hv Hns. unfold required_fields in Hkey.
  assert (required_str body key = None ∧
          defaulted_str body key "pending" = None) as [Hreq Hdef].
  { unfold required_str, defaulted_str. rewrite Hv.
    destruct v as [| | |s]; [done..|by destruct (Hns s)]. }
  unfold create_task, validate_TaskCreate.
  repeat (apply elem_of_cons in Hkey as [->|Hkey]);
    [..|by apply elem_of_nil in Hkey];
    rewrite ?Hreq, ?Hdef;
    repeat match goal with
      | |- context [ match ?check body ?k with _ => _ end ] =>
          destruct (check body k)
      | |- context [ match defaulted_str body ?k ?d with _ => _ end ] =>
          destruct (defaulted_str body k d)
      end;
    (eexists; split; [reflexivity|]);
    apply elem_of_offending; simpl; repeat constructor.
Qed.

Lemma create_task_rejects_non_string_witness :
  ∃ fields,
    create_task
      {[ "complain_no" := JString "TEST001"; "complain_status" := JNull;
         "created_by" := JString "test_user" ]} [sample_task]
    = (RequestValidationError fields, [sample_task]) ∧
    "complain_status" ∈ fields.
Proof.
  apply (create_task_rejects_non_string _ [sample_task] "complain_status" JNull).
  - repeat constructor.
  - vm_compute. reflexivity.
  - discriminate.
Defined.

(** X10. An update body that holds a boolean or a number under one of the
    four fields is answered with a validation error that lists the field,
    whether or not the id exists, and the table is unchanged. *)
Theorem update_task_rejects_non_string (body : gmap string json)
    (rows : list Task.t) (task_id : Z) (key : string) (v : json) :
  key ∈ TaskUpdate_fields → body !! key = Some v →
  v ≠ JNull → (∀ s, v ≠ JString s) →
  ∃ fields,
    update_task task_id body rows = (RequestValidationError fields, rows) ∧
    key ∈ fields.
Proof.
  intros Hkey Hv Hnn Hns. unfold TaskUpdate_fields in Hkey.
  assert (optional_str body key = None) as Hopt.
  { unfold optional_str. rewrite Hv.
    destruct v as [| | |s]; [done..|by destruct (Hns s)]. }
  unfold update_task, validate_TaskUpdate.
  repeat (apply elem_of_cons in Hkey as [->|Hkey]);
    [..|by apply elem_of_nil in Hkey];
    rewrite Hopt;
    repeat match goal with
      | |- context [ match optional_str body ?k with _ => _ end ] =>
          destruct (optional_str body k)
      end;
    (eexists; split; [reflexivity|]);
    apply elem_of_offending; simpl; repeat constructor.
Qed.

Lemma update_task_rejects_non_string_witness :
  ∃ fields,
    update_task 99999 {[ "complain_status" := JNumber 5 ]} [sample_task]
    = (RequestValidationError fields, [sample_task]) ∧
    "complain_status" ∈ fields.
Proof.
  apply (update_task_rejects_non_string _ [sample_task] 99999
           "complain_status" (JNumber 5)).
  - repeat constructor.
  - vm_compute. reflexivity.
  - discriminate.
  - discriminate.
Defined.

(** ** The application as a whole *)

Section application.
Implicit Types (rows : list Task.t) (body : gmap string json).
Implicit Types (task : Task.t) (req : request).

Lemma validate_TaskResponse_is_Some task :
  is_Some (Task.id task) → not_null task = true →
  is_Some (validate_TaskResponse task).
Proof.
  unfold validate_TaskResponse, not_null. intros [i Hid] Hok.
  destruct task as [? [no|] remarks [status|] [by_|]]; simpl in *;
    try discriminate Hok.
  rewrite Hid. by eexists.
Qed.

Lemma table_ok_elem_of rows task :
  table_ok rows → task ∈ rows →
  is_Some (Task.id task) ∧ not_null task = true.
Proof. intros [Hrows _] Hin. by apply (proj1 (Forall_forall _ _) Hrows). Qed.

(** The table after an update: as before, or with the rows of the id
    replaced by the committed object, which carries that id. *)
Lemma update_task_table rows task_id body :
  (update_task task_id body rows).2 = rows ∨
  ∃ old task,
    row_with_id rows task_id = Some old ∧ Task.id task = Some task_id ∧
    not_null task = true ∧
    update_task task_id body rows
    = (Response 200 task,
       (λ row, if bool_decide (Task.id row = Some task_id)
               then task else row) <$> rows).
Proof.
  destruct (validate_TaskUpdate body) as [fields|task_update] eqn:Hvalid.
  { left. unfold update_task, session_get. by rewrite Hvalid. }
  destruct (row_with_id rows task_id) as [old|] eqn:Hget.
  2: { left. unfold update_task, session_get. rewrite Hvalid, Hget.
       by destruct (decide (int64 task_id)). }
  pose proof (update_task_run _ _ _ _ _ Hget Hvalid) as Hfail. simpl in Hfail.
  destruct (not_null (apply_task_data old _)) eqn:Hok.
  - right. eexists old, _. split; [done|].
    destruct (row_with_id_Some _ _ _ Hget) as [Hid _].
    split; [by rewrite (id_updated body task_update old Hvalid)|].
    split; [exact Hok|].
    by apply update_task_commits.
  - left. by rewrite Hfail.
Qed.

Lemma dispatch_table_ok req rows :
  table_ok rows → table_ok (dispatch req rows).2.
Proof.
  intros Hok. destruct req as [body| | |task_id body|task_id| |]; simpl;
    try done.
  - pose proof (create_task_table_ok body rows Hok).
    by destruct (create_task body rows).
  - pose proof (update_task_table_ok task_id body rows Hok).
    by destruct (update_task task_id body rows).
  - pose proof (delete_task_table_ok task_id rows Hok).
    by destruct (delete_task task_id rows).
Qed.

Lemma max_id_positive rows m :
  ids_positive rows → max_id rows = Some m → 1 ≤ m.
Proof.
  unfold ids_positive. intros Hpos. revert m.
  induction Hpos as [|row rows (i & Hid & Hi) _ IH]; [done|].
  intros m. simpl. rewrite Hid.
  destruct (max_id rows) as [j|]; intros [= <-]; [|done].
  specialize (IH j eq_refl). lia.
Qed.

Lemma next_id_positive rows : ids_positive rows → 1 ≤ next_id rows.
Proof.
  intros Hpos. unfold next_id.
  destruct (max_id rows) as [m|] eqn:Hmax; [|done].
  pose proof (max_id_positive _ _ Hpos Hmax). lia.
Qed.

Lemma dispatch_ids_positive req rows :
  ids_positive rows → ids_positive (dispatch req rows).2.
Proof.
  intros Hpos. destruct req as [body| | |task_id body|task_id| |]; simpl;
    try done.
  - destruct (validate_TaskCreate body) as [fields|task] eqn:Hvalid.
    { by rewrite (create_task_rejected _ _ _ Hvalid). }
    rewrite (create_task_validated _ _ _ Hvalid). simpl.
    apply Forall_app. split; [done|]. apply Forall_singleton.
    eexists. split; [done|]. by apply next_id_positive.
  - destruct (update_task_table rows task_id body)
      as [Hsame|(old & task & Hget & Hid & _ & Hrun)].
    { destruct (update_task task_id body rows). simpl in *. by subst. }
    rewrite Hrun. simpl. apply Forall_fmap.
    destruct (row_with_id_Some _ _ _ Hget) as [Hold Hin].
    pose proof (proj1 (Forall_forall _ _) Hpos old Hin) as (i & Hi & Hge).
    eapply Forall_impl; [exact Hpos|]. intros row Hrow. simpl.
    case_bool_decide; [|done]. exists i. split; [congruence|done].
  - unfold delete_task, session_get.
    destruct (row_with_id rows task_id);
      [|by destruct (decide (int64 task_id))].
    simpl. unfold commit_deleted. apply Forall_forall.
    intros row [_ Hin]%list_elem_of_filter.
    by apply (proj1 (Forall_forall _ _) Hpos).
Qed.

(** A body under which the loop changes nothing is committed as a
    no-op. *)
Lemma update_task_same rows task_id task body task_update :
  table_ok rows → row_with_id rows task_id = Some task →
  validate_TaskUpdate body = inr task_update →
  apply_task_data task (model_dump_exclude_unset task_update) = task →
  update_task task_id body rows = (Response 200 task, rows).
Proof.
  intros Hok Hget Hvalid Hsame.
  rewrite (update_task_commits _ _ _ _ _ Hget Hvalid); rewrite Hsame.
  2: { by apply (table_ok_not_null rows task_id). }
  f_equal. rewrite <-(list_fmap_id rows) at 2.
  apply list_fmap_ext. intros i row Hrow. simpl.
  case_bool_decide as Hid; [|done].
  destruct (row_with_id_Some _ _ _ Hget) as [Hid' Hin].
  apply (table_ok_same_id rows); [done|done| |congruence].
  by apply list_elem_of_lookup_2 in Hrow.
Qed.

Lemma TaskResponse_json_lookup (r : TaskResponse.t) :
  TaskResponse_json r !! "complain_no"
  = Some (JString (TaskResponse.complain_no r)) ∧
  TaskResponse_json r !! "complain_remarks"
  = Some (match TaskResponse.complain_remarks r with
          | Some remarks => JString remarks
          | None => JNull
          end) ∧
  TaskResponse_json r !! "complain_status"
  = Some (JString (TaskResponse.complain_status r)) ∧
  TaskResponse_json r !! "created_by"
  = Some (JString (TaskResponse.created_by r)).
Proof. by repeat split. Qed.
End application.

(** X11. A request that the application answers with a status of 400 or
    more leaves the table exactly as it was. *)
Theorem dispatch_error_unchanged (req : request) (rows : list Task.t) :
  400 ≤ reply_status (dispatch req rows).1 → (dispatch req rows).2 = rows.
Proof.
  destruct req as [body| | |task_id body|task_id| |]; simpl; try done.
  - destruct (validate_TaskCreate body) as [fields|task] eqn:Hvalid.
    { by rewrite (create_task_rejected _ _ _ Hvalid). }
    rewrite (create_task_validated _ _ _ Hvalid). simpl. lia.
  - destruct (update_task_table rows task_id body)
      as [Hsame|(old & task & _ & Hid & Hok & Hrun)].
    { by destruct (update_task task_id body rows). }
    rewrite Hrun. simpl.
    destruct (validate_TaskResponse_is_Some task) as [r ->];
      [by eexists|done|]. simpl. lia.
  - unfold delete_task, session_get.
    destruct (row_with_id rows task_id); simpl;
      [lia|by destruct (decide (int64 task_id))].
Qed.

Lemma dispatch_error_unchanged_witness :
  (dispatch (PUT_task 1 {[ "complain_no" := JNull ]}) [sample_task]).2
  = [sample_task].
Proof.
  apply (dispatch_error_unchanged (PUT_task 1 {[ "complain_no" := JNull ]})
           [sample_task]).
  vm_compute. discriminate.
Defined.

(** X12. On a table the routes can produce, a request whose integers
    (task_id, skip, limit) are in the signed 64-bit range is answered with
    500 only when it is an update whose body supplies null for
    complain_no, complain_status or created_by: no other such request,
    and no returned record failing the response schema, gives a server
    error. *)
Theorem dispatch_500 (req : request) (rows : list Task.t) :
  table_ok rows → Forall int64 (request_integers req) →
  reply_status (dispatch req rows).1 = 500 →
  ∃ task_id body,
    req = PUT_task task_id body ∧
    Exists (λ key, body !! key = Some JNull) required_fields.
Proof.
  intros Hok Hrange.
  destruct req as [body|status created_by skip limit_|task_id
                  |task_id body|task_id| |]; cbn [dispatch].
  - destruct (validate_TaskCreate body) as [fields|task] eqn:Hvalid.
    { by rewrite (create_task_rejected _ _ _ Hvalid). }
    by rewrite (create_task_validated _ _ _ Hvalid).
  - apply Forall_cons in Hrange as [Hskip Hlimit%Forall_cons_1].
    rewrite list_tasks_exec by tauto.
    cbn [fst reply_status response_model].
    destruct (mapM_is_Some_2 validate_TaskResponse
                (exec (list_statement status created_by (default 0 skip)
                         (default 100 limit_)) rows)) as [tasks ->]; [|done].
    apply Forall_forall. intros task [Hin _]%exec_elem_of.
    destruct (table_ok_elem_of _ _ Hok Hin).
    by apply validate_TaskResponse_is_Some.
  - apply Forall_cons_1 in Hrange as [Hid _].
    unfold get_task. cbn [fst reply_status].
    destruct (row_with_id rows task_id) as [task|] eqn:Hget.
    2: { by rewrite (session_get_absent _ _ Hget Hid). }
    rewrite (session_get_stored _ _ _ Hget).
    destruct (row_with_id_Some _ _ _ Hget) as [_ Hin].
    destruct (table_ok_elem_of _ _ Hok Hin).
    cbn [response_model].
    by destruct (validate_TaskResponse_is_Some task) as [r ->].
  - apply Forall_cons_1 in Hrange as [Hid _].
    intros Hstatus. exists task_id, body. split; [done|].
    destruct (validate_TaskUpdate body) as [fields|task_update] eqn:Hvalid.
    { unfold update_task in Hstatus. by rewrite Hvalid in Hstatus. }
    destruct (row_with_id rows task_id) as [task|] eqn:Hget.
    2: { unfold update_task in Hstatus.
         by rewrite Hvalid, (session_get_absent _ _ Hget Hid) in Hstatus. }
    destruct (decide (Exists (λ key, body !! key = Some JNull) required_fields))
      as [Hex|Hnex]; [done|]. exfalso.
    pose proof (not_null_updated body _ task Hvalid
                  (table_ok_not_null _ _ _ Hok Hget)) as Hnn.
    rewrite bool_decide_eq_false_2 in Hnn by done. simpl in Hnn.
    rewrite (update_task_commits _ _ _ _ _ Hget Hvalid Hnn) in Hstatus.
    simpl in Hstatus.
    destruct (validate_TaskResponse_is_Some
                (apply_task_data task (model_dump_exclude_unset task_update)))
      as [r Hr]; [|done|].
    + destruct (row_with_id_Some _ _ _ Hget) as [Hid' _].
      rewrite (id_updated body task_update task Hvalid), Hid'. by eexists.
    + by rewrite Hr in Hstatus.
  - apply Forall_cons_1 in Hrange as [Hid _]. unfold delete_task.
    destruct (row_with_id rows task_id) as [task|] eqn:Hget.
    + by rewrite (session_get_stored _ _ _ Hget).
    + by rewrite (session_get_absent _ _ Hget Hid).
  - done.
  - unfold session_exec. by rewrite decide_True by (split; [done|by compute]).
Qed.

Lemma dispatch_500_witness :
  ∃ task_id body,
    PUT_task 1 {[ "complain_no" := JNull ]} = PUT_task task_id body ∧
    Exists (λ key, body !! key = Some JNull) required_fields.
Proof.
  apply (dispatch_500 (PUT_task 1 {[ "complain_no" := JNull ]}) [sample_task]).
  - split; [repeat constructor; by eexists|]. apply NoDup_singleton.
  - apply Forall_singleton. unfold int64. lia.
  - vm_compute. reflexivity.
Defined.

(** X13. Serving any sequence of requests keeps the table well formed:
    every row has an id of at least 1 and non-null complain_no,
    complain_status and created_by, and no two rows share an id. *)
Theorem run_table_ok (requests : list request) (rows : list Task.t) :
  table_ok rows → ids_positive rows →
  table_ok (run requests rows) ∧ ids_positive (run requests rows).
Proof.
  revert rows. induction requests as [|req requests IH]; intros rows Hok Hpos.
  - by split.
  - simpl. apply IH; [by apply dispatch_table_ok|by apply dispatch_ids_positive].
Qed.

Lemma run_table_ok_witness :
  table_ok
    (run [POST_tasks minimal_data; PUT_task 1 clear_remarks;
          POST_tasks resolved_data; DELETE_task 1] []) ∧
  ids_positive
    (run [POST_tasks minimal_data; PUT_task 1 clear_remarks;
          POST_tasks resolved_data; DELETE_task 1] []).
Proof.
  apply (run_table_ok
           [POST_tasks minimal_data; PUT_task 1 clear_remarks;
            POST_tasks resolved_data; DELETE_task 1] []).
  - apply table_ok_nil.
  - apply Forall_nil. exact I.
Defined.

(** X14. Whatever requests the application has served since the table was
    empty, fetching an id of 0 or less that lies in the signed 64-bit
    range is answered with 404. *)
Theorem get_task_non_positive (requests : list request) (task_id : Z) :
  int64 task_id → task_id ≤ 0 →
  get_task task_id (run requests []) = not_found task_id.
Proof.
  intros Hrange Hle.
  destruct (run_table_ok requests []) as [_ Hpos];
    [apply table_ok_nil | by apply Forall_nil|].
  unfold get_task. rewrite session_get_absent; [done| |done].
  apply row_with_id_None. intros row Hin Hid.
  destruct (proj1 (Forall_forall _ _) Hpos row Hin) as (i & Hi & Hge).
  assert (i = task_id) by congruence. lia.
Qed.

Lemma get_task_non_positive_witness :
  get_task 0 (run [POST_tasks minimal_data; DELETE_task 1] []) = not_found 0.
Proof.
  apply (get_task_non_positive [POST_tasks minimal_data; DELETE_task 1] 0).
  - unfold int64. lia.
  - lia.
Defined.

(** ** Round trips through the JSON of a response *)

(** X15. Sending back, as an update, the JSON the service returns for a
    stored record is answered with 200 and that record, and changes
    nothing in the table: the id key of the body is ignored. *)
Theorem update_task_own_json (rows : list Task.t) (task_id : Z)
    (task : Task.t) :
  table_ok rows → row_with_id rows task_id = Some task →
  ∃ r,
    validate_TaskResponse task = Some r ∧
    update_task task_id (TaskResponse_json r) rows = (Response 200 task, rows).
Proof.
  intros Hok Hget. destruct (row_with_id_Some _ _ _ Hget) as [Hid Hin].
  destruct (table_ok_elem_of _ _ Hok Hin) as [Hsome Hnn].
  destruct (validate_TaskResponse_is_Some task Hsome Hnn) as [r Hr].
  exists r. split; [done|].
  destruct (TaskResponse_json_lookup r) as (Hno & Hremarks & Hstatus & Hby).
  destruct (validate_TaskUpdate_inr (TaskResponse_json r))
    as [task_update Hvalid].
  { intros key Hkey. unfold TaskUpdate_fields in Hkey. unfold optional_str.
    repeat (apply elem_of_cons in Hkey as [->|Hkey]);
      [..|by apply elem_of_nil in Hkey];
      rewrite ?Hno, ?Hremarks, ?Hstatus, ?Hby;
      try destruct (TaskResponse.complain_remarks r); by eexists. }
  apply (update_task_same _ _ _ _ task_update); [done..|].
  rewrite (apply_task_data_dump _ _ _ Hvalid). unfold supplied.
  rewrite Hno, Hremarks, Hstatus, Hby.
  unfold validate_TaskResponse in Hr.
  destruct task as [[i|] [no|] remarks [status|] [by_|]]; simpl in *;
    try discriminate Hr.
  injection Hr as <-. simpl. by destruct remarks.
Qed.

Lemma update_task_own_json_witness :
  ∃ r,
    validate_TaskResponse sample_task = Some r ∧
    update_task 1 (TaskResponse_json r) [sample_task]
    = (Response 200 sample_task, [sample_task]).
Proof.
  apply (update_task_own_json [sample_task] 1 sample_task).
  - split; [repeat constructor; by eexists|]. apply NoDup_singleton.
  - reflexivity.
Defined.

(** X16. The JSON the service returns for a task is a valid create
    payload: posting it is answered with 201 and a new record that has
    the same complain_no, complain_remarks, complain_status and
    created_by, under the next id of the table and not the id of the
    payload. *)
Theorem create_task_from_json (rows : list Task.t) (r : TaskResponse.t) :
  ∃ db_task,
    create_task (TaskResponse_json r) rows
    = (Response 201 db_task, (rows ++ [db_task])%list) ∧
    validate_TaskResponse db_task
    = Some (TaskResponse.mk (next_id rows) (TaskResponse.complain_no r)
              (TaskResponse.complain_remarks r)
              (TaskResponse.complain_status r) (TaskResponse.created_by r)).
Proof.
  destruct (TaskResponse_json_lookup r) as (Hno & Hremarks & Hstatus & Hby).
  assert (validate_TaskCreate (TaskResponse_json r)
          = inr (TaskCreate.mk (TaskResponse.complain_no r)
                   (TaskResponse.complain_remarks r)
                   (TaskResponse.complain_status r)
                   (TaskResponse.created_by r))) as Hvalid.
  { apply validate_TaskCreate_inr.
    unfold required_str, optional_str, defaulted_str. simpl.
    rewrite Hno, Hremarks, Hstatus, Hby.
    by destruct (TaskResponse.complain_remarks r). }
  rewrite (create_task_validated _ _ rows Hvalid). simpl.
  eexists. split; reflexivity.
Qed.

(** ** Listing *)

Section list_more.
Implicit Types (rows tasks : list Task.t) (statement : Select).

Lemma exec_sublist statement rows : exec statement rows `sublist_of` rows.
Proof.
  unfold exec.
  match goal with
  | |- context [ apply_offset _ ?matching ] =>
      assert (matching `sublist_of` rows) by apply sublist_filter;
      generalize dependent matching
  end.
  intros matching Hmatching. etransitivity; [|exact Hmatching].
  destruct (limit_clause statement) as [n|], (offset_clause statement) as [m|];
    simpl; try destruct (bool_decide (n < 0));
    try done; try apply sublist_drop; try apply sublist_take.
  etransitivity; [apply sublist_take | apply sublist_drop].
Qed.

(** A window that starts at the first row and is wider than the table
    returns every selected row. *)
Lemma exec_wide status created_by rows limit_ :
  Z.of_nat (length rows) ≤ limit_ →
  exec (list_statement status created_by 0 limit_) rows
  = filter (λ row,
       forallb (λ criterion, criterion row)
         (whereclause (list_statement status created_by 0 0)) = true) rows.
Proof.
  intros Hwide.
  replace limit_
    with (Z.of_nat (length rows + Z.to_nat (limit_ - Z.of_nat (length rows))))
    by lia.
  apply exec_unpaged.
Qed.
End list_more.

(** X17. A list request whose skip and limit are in the signed 64-bit
    range is answered with 200 and rows of the table in the order of the
    table, none invented, repeated or moved; with a skip or a limit
    outside the range it fails with OverflowError, whatever the table and
    the filters. *)
Theorem list_tasks_sublist (status created_by : option string)
    (skip limit_ : Z) (rows : list Task.t) :
  (int64 skip → int64 limit_ →
   ∃ tasks,
     list_tasks status created_by skip limit_ rows = Response 200 tasks ∧
     tasks `sublist_of` rows) ∧
  (¬ (int64 skip ∧ int64 limit_) →
   list_tasks status created_by skip limit_ rows = Raised "OverflowError" ∧
   status_code_of (list_tasks status created_by skip limit_ rows) = 500).
Proof.
  split.
  - intros Hskip Hlimit. eexists.
    split; [by apply list_tasks_exec | apply exec_sublist].
  - intros Hrange. by rewrite list_tasks_overflow.
Qed.

Lemma list_tasks_sublist_witness :
  (∃ tasks,
     list_tasks None None 1 100 [task_bob; task_alice] = Response 200 tasks ∧
     tasks `sublist_of` [task_bob; task_alice]) ∧
  list_tasks None None 0 9223372036854775808 [task_bob; task_alice]
  = Raised "OverflowError".
Proof.
  split.
  - apply (list_tasks_sublist None None 1 100 [task_bob; task_alice]);
      unfold int64; lia.
  - apply (list_tasks_sublist None None 0 9223372036854775808
             [task_bob; task_alice]).
    unfold int64. lia.
Defined.

(** X18. Pages tile the selection: for skip ≥ 0 and limits n, m ≥ 0 with
    skip + n and n + m in the signed 64-bit range, the page of n records
    from skip followed by the page of m records from skip + n is the page
    of n + m records from skip. *)
Theorem list_tasks_pages (status created_by : option string) (skip n m : Z)
    (rows : list Task.t) :
  0 ≤ skip → 0 ≤ n → 0 ≤ m → int64 (skip + n) → int64 (n + m) →
  ∃ first second,
    list_tasks status created_by skip n rows = Response 200 first ∧
    list_tasks status created_by (skip + n) m rows = Response 200 second ∧
    list_tasks status created_by skip (n + m) rows
    = Response 200 (first ++ second)%list.
Proof.
  intros Hskip Hn Hm Hsn Hnm.
  rewrite !list_tasks_exec by (unfold int64 in *; lia).
  eexists _, _. split; [reflexivity|]. split; [reflexivity|]. f_equal.
  unfold exec. rewrite !whereclause_list_statement.
  cbn [limit_clause offset_clause list_statement limit offset
         apply_limit apply_offset].
  rewrite !bool_decide_eq_false_2 by lia.
  rewrite !Z2Nat.inj_add by lia.
  rewrite <-drop_drop. apply symmetry, take_take_drop.
Qed.

Lemma list_tasks_pages_witness :
  ∃ first second,
    list_tasks None None 0 1 [task_bob; task_alice] = Response 200 first ∧
    list_tasks None None (0 + 1) 1 [task_bob; task_alice]
    = Response 200 second ∧
    list_tasks None None 0 (1 + 1) [task_bob; task_alice]
    = Response 200 (first ++ second)%list.
Proof.
  apply (list_tasks_pages None None 0 1 1 [task_bob; task_alice]);
    unfold int64; lia.
Defined.

(** X19. After a delete of an id, no list request returns a record with
    that id, whatever its filters and its window in the signed 64-bit
    range. *)
Theorem list_tasks_after_delete (status created_by : option string)
    (skip limit_ : Z) (rows : list Task.t) (task_id : Z) :
  int64 skip → int64 limit_ →
  ∃ tasks,
    list_tasks status created_by skip limit_ (delete_task task_id rows).2
    = Response 200 tasks ∧
    Forall (λ task, Task.id task ≠ Some task_id) tasks.
Proof.
  intros Hskip Hlimit. eexists. split; [by apply list_tasks_exec|].
  apply Forall_forall. intros task [Hin _]%exec_elem_of. revert Hin.
  unfold delete_task, session_get.
  destruct (row_with_id rows task_id) as [found|] eqn:Hget; simpl.
  - destruct (row_with_id_Some _ _ _ Hget) as [Hid _].
    unfold commit_deleted. rewrite Hid.
    by intros [Hne _]%list_elem_of_filter.
  - destruct (decide (int64 task_id)); by apply row_with_id_None.
Qed.

Lemma list_tasks_after_delete_witness :
  ∃ tasks,
    list_tasks None None 0 100 (delete_task 1 [task_bob; task_alice]).2
    = Response 200 tasks ∧
    Forall (λ task, Task.id task ≠ Some 1) tasks.
Proof.
  apply (list_tasks_after_delete None None 0 100 [task_bob; task_alice] 1);
    unfold int64; lia.
Defined.

(** X20. After a valid create, a list request from the first row with a
    limit above the number of rows, and in the signed 64-bit range,
    returns the new record exactly when each of its two filters is
    absent, empty or equal to the record's field. *)
Theorem list_tasks_after_create (body : gmap string json)
    (task : TaskCreate.t) (rows : list Task.t)
    (status created_by : option string) (limit_ : Z) :
  validate_TaskCreate body = inr task →
  Z.of_nat (length rows) < limit_ → int64 limit_ →
  ∃ db_task tasks,
    (create_task body rows).1 = Response 201 db_task ∧
    list_tasks status created_by 0 limit_ (create_task body rows).2
    = Response 200 tasks ∧
    (db_task ∈ tasks ↔
     lets_through status (TaskCreate.complain_status task) ∧
     lets_through created_by (TaskCreate.created_by task)).
Proof.
  intros Hvalid Hwide Hrange. rewrite (create_task_validated _ _ rows Hvalid).
  simpl. eexists _, _. split; [reflexivity|].
  split; [apply list_tasks_exec; [unfold int64; lia | done]|].
  rewrite exec_wide by (rewrite length_app; simpl; lia).
  rewrite list_elem_of_filter, elem_of_app, list_elem_of_singleton.
  rewrite whereclause_list_statement. unfold if_truthy, lets_through.
  destruct status as [a|], created_by as [b|];
    repeat case_bool_decide; subst; simpl; unfold col_eq; simpl;
    repeat case_bool_decide; simpl; intuition congruence.
Qed.

Lemma list_tasks_after_create_witness :
  ∃ db_task tasks,
    (create_task minimal_data [sample_task]).1 = Response 201 db_task ∧
    list_tasks (Some "pending") (Some "test_user") 0 100
      (create_task minimal_data [sample_task]).2
    = Response 200 tasks ∧
    (db_task ∈ tasks ↔
     lets_through (Some "pending") "pending" ∧
     lets_through (Some "test_user") "test_user").
Proof.
  apply (list_tasks_after_create minimal_data
           (TaskCreate.mk "MIN001" None "pending" "test_user") [sample_task]
           (Some "pending") (Some "test_user") 100).
  - vm_compute. reflexivity.
  - simpl. lia.
  - unfold int64. lia.
Defined.

(** X21. A list request without query parameters is served with the
    defaults of the signature, skip 0 and limit 100: on a table the
    routes can produce it is answered with 200 and the first 100 rows of
    the table (all of them when there are at most 100), each in the shape
    of the response schema. *)
Theorem list_tasks_defaults (rows : list Task.t) :
  table_ok rows →
  ∃ tasks,
    (dispatch (GET_tasks None None None None) rows).1
    = TasksReply (Response 200 tasks) ∧
    mapM validate_TaskResponse (take 100 rows) = Some tasks.
Proof.
  intros Hok. cbn [dispatch fst default].
  rewrite list_tasks_exec by (unfold int64; lia).
  assert (exec (list_statement None None 0 100) rows = take 100 rows) as ->.
  { unfold exec. simpl. rewrite drop_0. f_equal.
    apply filter_Forall_all, Forall_forall. by intros. }
  destruct (mapM_is_Some_2 validate_TaskResponse (take 100 rows))
    as [tasks Htasks].
  { apply Forall_forall. intros task Hin%subseteq_take.
    destruct (table_ok_elem_of _ _ Hok Hin).
    by apply validate_TaskResponse_is_Some. }
  exists tasks. cbn [response_model]. by rewrite Htasks.
Qed.

Lemma list_tasks_defaults_witness :
  ∃ tasks,
    (dispatch (GET_tasks None None None None) [sample_task]).1
    = TasksReply (Response 200 tasks) ∧
    mapM validate_TaskResponse (take 100 [sample_task]) = Some tasks.
Proof.
  apply (list_tasks_defaults [sample_task]).
  split; [repeat constructor; by eexists|]. apply NoDup_singleton.
Defined.

(** X22. An update never adds or removes a row and never changes an id:
    whatever it is answered with, the ids of the table, in order, are
    those of before. *)
Theorem update_task_keeps_ids (rows : list Task.t) (task_id : Z)
    (body : gmap string json) :
  Task.id <$> (update_task task_id body rows).2 = Task.id <$> rows.
Proof.
  destruct (update_task_table rows task_id body)
    as [->|(old & task & _ & Hid & _ & ->)]; [done|].
  simpl. rewrite <-list_fmap_compose.
  apply list_fmap_ext. intros i row _. simpl.
  case_bool_decide; congruence.
Qed.

(** ** Integers the driver cannot bind *)

(** X23. For an id outside the signed 64-bit range that no row carries,
    a fetch, a delete and an update with a valid body all fail with
    OverflowError, which the application answers with 500, and the table
    is unchanged. *)
Theorem task_id_overflow (rows : list Task.t) (task_id : Z)
    (body : gmap string json) (task_update : TaskUpdate.t) :
  ¬ int64 task_id → row_with_id rows task_id = None →
  validate_TaskUpdate body = inr task_update →
  get_task task_id rows = Raised "OverflowError" ∧
  update_task task_id body rows = (Raised "OverflowError", rows) ∧
  delete_task task_id rows = (Raised "OverflowError", rows) ∧
  reply_status (dispatch (GET_task task_id) rows).1 = 500 ∧
  reply_status (dispatch (PUT_task task_id body) rows).1 = 500 ∧
  reply_status (dispatch (DELETE_task task_id) rows).1 = 500.
Proof.
  intros Hrange Hget Hvalid.
  pose proof (session_get_overflow _ _ Hget Hrange) as Hraise.
  assert (get_task task_id rows = Raised "OverflowError") as Hfetch.
  { unfold get_task. by rewrite Hraise. }
  assert (update_task task_id body rows = (Raised "OverflowError", rows))
    as Hupdate.
  { unfold update_task. by rewrite Hvalid, Hraise. }
  assert (delete_task task_id rows = (Raised "OverflowError", rows))
    as Hdelete.
  { unfold delete_task. by rewrite Hraise. }
  repeat split; try done; cbn [dispatch].
  - by rewrite Hfetch.
  - by rewrite Hupdate.
  - by rewrite Hdelete.
Qed.

Lemma task_id_overflow_witness :
  get_task 9223372036854775808 [sample_task] = Raised "OverflowError" ∧
  update_task 9223372036854775808 clear_remarks [sample_task]
  = (Raised "OverflowError", [sample_task]) ∧
  delete_task 9223372036854775808 [sample_task]
  = (Raised "OverflowError", [sample_task]) ∧
  reply_status (dispatch (GET_task 9223372036854775808) [sample_task]).1
  = 500 ∧
  reply_status
    (dispatch (PUT_task 9223372036854775808 clear_remarks) [sample_task]).1
  = 500 ∧
  reply_status (dispatch (DELETE_task 9223372036854775808) [sample_task]).1
  = 500.
Proof.
  apply (task_id_overflow [sample_task] 9223372036854775808 clear_remarks
           (TaskUpdate.mk None None None None ["complain_remarks"])).
  - unfold int64. lia.
  - reflexivity.
  - vm_compute. reflexivity.
Defined.
